(** * The AI tutor application (app.py): session, user repository and
      conversation engine, as a shallow embedding.

    The Streamlit script is re-run from the top on every user interaction.
    One run is modelled as [main E ev m]: [E] holds what the outside world
    answers during the run (files, chat completion, image generation,
    bcrypt), [ev] is the widget the user operated, and [m] is the state that
    survives between runs: [st.session_state] and the Firestore collection
    of user documents.  The script's control flow ([return], [st.stop()],
    [st.rerun()], raised exceptions) is carried by a small state monad.

    Modelling choices.  Firestore reads and writes succeed, except
    [doc_ref.update] on a missing document, which raises.  Text is [string];
    a token balance is a Python integer, [Z].  Widget state that Streamlit
    keeps under its own keys, and the banner of the process' very first
    Firebase initialisation, are left out. *)

From Stdlib Require Import ZArith List String Ascii Bool Lia.
From stdpp Require Import base option gmap strings pretty.
Import ListNotations.

Open Scope Z_scope.
Open Scope string_scope.

(** ** Data model *)

(** A chat message: [{"role": ..., "content": ...}]. *)
Inductive role := system | user | assistant | image.

Record message := Msg { msg_role : role; msg_content : string }.

Definition role_eqb (a b : role) : bool :=
  match a, b with
  | system, system | user, user | assistant, assistant | image, image => true
  | _, _ => false
  end.

(** [learning_preferences]: the three keys the application writes. *)
Record preferences := Prefs { style : string; pace : string; difficulty : string }.

(** A user record.  The same fields live in a Firestore document and in the
    [user_data] dict of the session; they differ in what the [chat_history]
    key holds, which is the parameter [H].  Keys read with [.get(key,
    default)] may be absent and are options. *)
Record user_record (H : Type) := UserRecord {
  first_name : string;
  last_name : string;
  email : string;
  username_field : string;
  password_hash : string;
  tokens : option Z;
  learning_preferences : option preferences;
  subjects : option (list string);
  chat_history_field : option H }.

Arguments UserRecord {H}.
Arguments first_name {H}.
Arguments last_name {H}.
Arguments email {H}.
Arguments username_field {H}.
Arguments password_hash {H}.
Arguments tokens {H}.
Arguments learning_preferences {H}.
Arguments subjects {H}.
Arguments chat_history_field {H}.

(** A stored document holds its transcript by value. *)
Definition doc := user_record (list message).

(** In the session, [user_data['chat_history']] is a Python list object.
    After login it is the very object bound to [st.session_state.chat_history]
    ([HistShared]: appends through either name are seen by both); once the
    session name is rebound to a fresh [[]] the dict keeps the old object for
    itself ([HistOwn]). *)
Inductive history_ref := HistShared | HistOwn (l : list message).

Definition user_dict := user_record history_ref.

Inductive page := login | register | profile | tutor.

(** [st.session_state]. *)
Record session := Session {
  firebase_initialized : bool;
  openai_initialized : bool;
  logged_in : bool;
  current_page : page;
  username : option string;
  user_data : option user_dict;
  chat_history : list message;
  current_study_subject : option string;
  subject_context_loaded : bool;
  active_syllabus : string;
  active_subject_context : string;
  generating_image : bool }.

(** What a run leaves on the page and which outside services it called, in
    order. *)
Inductive io :=
| st_error (text : string)
| st_warning (text : string)
| st_info (text : string)
| st_success (text : string)
| chat_completions_create (messages : list message) (max_tokens : Z)
| images_generate (prompt : string)
| gTTS (text : string)
| firestore_set (name : string) (data : doc)
| firestore_update (name : string) (history : list message).

(** The state a run works on: the session, the [users] collection, and the
    output of the current run. *)
Record machine := Machine {
  ss : session;
  db : gmap string doc;
  out : list io }.

(** ** The outside world *)

Inductive read_result := ReadOk (text : string) | FileNotFound | ReadFailed (e : string).

Inductive exn := APIError (e : string) | OtherException (e : string).

Inductive chat_result := ChatOk (content : string) | ChatRaises (e : exn).

(** What DALL-E answers: a URL, a response without data, or an exception. *)
Inductive image_result := ImageUrl (url : string) | ImageNoData | ImageRaises (e : exn).

Inductive speech_result := Audio (bytes : string) | SpeechRaises (e : string).

Record env := Env {
  env_firebase_key : bool;        (* FIREBASE_SERVICE_ACCOUNT_KEY_B64 is set and valid *)
  env_openai_key : bool;          (* st.secrets has OPENAI_API_KEY *)
  env_pdf : string -> read_result;   (* PdfReader(path), text of the pages *)
  env_txt : string -> read_result;   (* open(path).read() *)
  env_chat : list message -> chat_result;
  env_image : string -> image_result;
  env_speech : string -> speech_result;
  env_hashpw : string -> string;           (* bcrypt.hashpw with a fresh salt *)
  env_checkpw : string -> string -> bool   (* bcrypt.checkpw *) }.

(** ** Python truthiness and string helpers *)

Definition truthy (s : string) : bool := negb (String.eqb s "").

Definition truthy_opt (o : option string) : bool :=
  match o with Some s => truthy s | None => false end.

(** [s.replace(a, b)] for one-character [a] and [b]. *)
Fixpoint replace_char (a b : ascii) (s : string) : string :=
  match s with
  | EmptyString => EmptyString
  | String c s' => String (if Ascii.eqb c a then b else c) (replace_char a b s')
  end.

Definition nl : string := String (ascii_of_nat 10) EmptyString.
Definition tab : string := String (ascii_of_nat 9) EmptyString.
Definition cr : string := String (ascii_of_nat 13) EmptyString.

(** ** Session updates *)

Definition set_flags (firebase openai : bool) (s : session) : session :=
  match s with
  | Session _ _ li pg un ud ch subj loaded syl ctx gi =>
      Session firebase openai li pg un ud ch subj loaded syl ctx gi
  end.

Definition set_logged_in (v : bool) (s : session) : session :=
  match s with
  | Session fb oa _ pg un ud ch subj loaded syl ctx gi =>
      Session fb oa v pg un ud ch subj loaded syl ctx gi
  end.

Definition set_current_page (v : page) (s : session) : session :=
  match s with
  | Session fb oa li _ un ud ch subj loaded syl ctx gi =>
      Session fb oa li v un ud ch subj loaded syl ctx gi
  end.

Definition set_username (v : option string) (s : session) : session :=
  match s with
  | Session fb oa li pg _ ud ch subj loaded syl ctx gi =>
      Session fb oa li pg v ud ch subj loaded syl ctx gi
  end.

Definition set_user_data (v : option user_dict) (s : session) : session :=
  match s with
  | Session fb oa li pg un _ ch subj loaded syl ctx gi =>
      Session fb oa li pg un v ch subj loaded syl ctx gi
  end.

Definition set_chat_history (v : list message) (s : session) : session :=
  match s with
  | Session fb oa li pg un ud _ subj loaded syl ctx gi =>
      Session fb oa li pg un ud v subj loaded syl ctx gi
  end.

Definition set_current_study_subject (v : option string) (s : session) : session :=
  match s with
  | Session fb oa li pg un ud ch _ loaded syl ctx gi =>
      Session fb oa li pg un ud ch v loaded syl ctx gi
  end.

Definition set_subject_context_loaded (v : bool) (s : session) : session :=
  match s with
  | Session fb oa li pg un ud ch subj _ syl ctx gi =>
      Session fb oa li pg un ud ch subj v syl ctx gi
  end.

Definition set_active_syllabus (v : string) (s : session) : session :=
  match s with
  | Session fb oa li pg un ud ch subj loaded _ ctx gi =>
      Session fb oa li pg un ud ch subj loaded v ctx gi
  end.

Definition set_active_subject_context (v : string) (s : session) : session :=
  match s with
  | Session fb oa li pg un ud ch subj loaded syl _ gi =>
      Session fb oa li pg un ud ch subj loaded syl v gi
  end.

Definition set_generating_image (v : bool) (s : session) : session :=
  match s with
  | Session fb oa li pg un ud ch subj loaded syl ctx _ =>
      Session fb oa li pg un ud ch subj loaded syl ctx v
  end.

(** Updates of a user record: [d[key] = value]. *)
Definition with_tokens {H} (t : option Z) (d : user_record H) : user_record H :=
  match d with
  | UserRecord fn ln em un ph _ lp sj hi => UserRecord fn ln em un ph t lp sj hi
  end.

Definition with_learning_preferences {H} (p : preferences) (d : user_record H)
  : user_record H :=
  match d with
  | UserRecord fn ln em un ph tk _ sj hi =>
      UserRecord fn ln em un ph tk (Some p) sj hi
  end.

Definition with_subjects {H} (l : list string) (d : user_record H) : user_record H :=
  match d with
  | UserRecord fn ln em un ph tk lp _ hi =>
      UserRecord fn ln em un ph tk lp (Some l) hi
  end.

Definition with_history {H H'} (h : option H') (d : user_record H) : user_record H' :=
  match d with
  | UserRecord fn ln em un ph tk lp sj _ => UserRecord fn ln em un ph tk lp sj h
  end.

(** The list object held by [user_data['chat_history']], read through the
    session when it is the shared object. *)
Definition dict_history (s : session) (d : user_dict) : option (list message) :=
  match chat_history_field d with
  | Some HistShared => Some (chat_history s)
  | Some (HistOwn l) => Some l
  | None => None
  end.

(** [st.session_state.chat_history = []]: the name is bound to a new list;
    a dict that shared the old object keeps it. *)
Definition unshare (old : list message) (d : user_dict) : user_dict :=
  match chat_history_field d with
  | Some HistShared => with_history (Some (HistOwn old)) d
  | _ => d
  end.

Definition rebind_chat_history (s : session) : session :=
  set_chat_history [] (set_user_data (unshare (chat_history s) <$> user_data s) s).

(** [st.session_state.chat_history.append(msg)]. *)
Definition append_chat_history (msg : message) (s : session) : session :=
  set_chat_history (chat_history s ++ [msg]) s.

(** ** The Firestore collection *)

(** [doc_ref.set(data, merge=True)]: keys present in [data] overwrite, keys
    absent from it keep the stored value. *)
Definition merge_doc (data : doc) (old : option doc) : doc :=
  match old with
  | None => data
  | Some o =>
      UserRecord (first_name data) (last_name data) (email data)
        (username_field data) (password_hash data)
        (match tokens data with Some t => Some t | None => tokens o end)
        (match learning_preferences data with
         | Some p => Some p | None => learning_preferences o end)
        (match subjects data with Some l => Some l | None => subjects o end)
        (match chat_history_field data with
         | Some h => Some h | None => chat_history_field o end)
  end.

Definition db_get (name : string) (d : gmap string doc) : option doc := d !! name.

Definition db_set (name : string) (data : doc) (d : gmap string doc)
  : gmap string doc := <[name := data]> d.

Definition db_set_merge (name : string) (data : doc) (d : gmap string doc)
  : gmap string doc := <[name := merge_doc data (d !! name)]> d.

(** ** Control flow of a script run *)

(** How a piece of script ends when it does not fall through: a [return]
    out of the page function, [st.stop()], [st.rerun()] (both halt the whole
    script at once and are not caught by [except Exception]), or an
    exception. *)
Inductive signal := SReturn | SStop | SRerun | SRaise (e : exn).

Inductive result (A : Type) := Val (a : A) | Sig (g : signal).
Arguments Val {A}.
Arguments Sig {A}.

Definition M (A : Type) : Type := machine -> result A * machine.

Definition ret {A} (a : A) : M A := fun m => (Val a, m).

Definition bind {A B} (c : M A) (k : A -> M B) : M B :=
  fun m =>
    match c m with
    | (Val a, m') => k a m'
    | (Sig g, m') => (Sig g, m')
    end.

Notation "'let*' x ':=' c 'in' k" := (bind c (fun x => k))
  (at level 10, x name, c at level 100, k at level 200).
Notation "c ';;;' k" := (bind c (fun _ => k))
  (at level 100, k at level 200, right associativity).

Definition halt {A} (g : signal) : M A := fun m => (Sig g, m).

Definition py_return : M unit := halt SReturn.
Definition st_stop : M unit := halt SStop.
Definition st_rerun : M unit := halt SRerun.
Definition raise {A} (e : exn) : M A := halt (SRaise e).

(** [try: body except openai.APIError / except Exception: handler]. *)
Definition try_except {A} (body : M A) (handler : exn -> M A) : M A :=
  fun m =>
    match body m with
    | (Sig (SRaise e), m') => handler e m'
    | r => r
    end.

(** [try: body finally: cleanup]: the cleanup runs however the body ends. *)
Definition try_finally {A} (body : M A) (cleanup : session -> session) : M A :=
  fun m =>
    match body m with
    | (r, Machine s d o) => (r, Machine (cleanup s) d o)
    end.

(** Calling a page function: its [return] ends the function only. *)
Definition call (f : M unit) : M unit :=
  fun m =>
    match f m with
    | (Sig SReturn, m') => (Val tt, m')
    | r => r
    end.

Definition get_session : M session := fun m => (Val (ss m), m).

Definition modify_session (f : session -> session) : M unit :=
  fun m => match m with Machine s d o => (Val tt, Machine (f s) d o) end.

Definition get_db : M (gmap string doc) := fun m => (Val (db m), m).

Definition modify_db (f : gmap string doc -> gmap string doc) : M unit :=
  fun m => match m with Machine s d o => (Val tt, Machine s (f d) o) end.

Definition emit (x : io) : M unit :=
  fun m => match m with Machine s d o => (Val tt, Machine s d (o ++ [x])) end.

Definition when (b : bool) (c : M unit) : M unit := if b then c else ret tt.

(** ** Helper functions of app.py *)

(** The local name [user_data] of a page function: the dict object held by
    [st.session_state.user_data]. *)
Definition the_user_data : M user_dict :=
  let* s := get_session in
  match user_data s with
  | Some d => ret d
  | None => raise (OtherException "TypeError: 'NoneType' object is not subscriptable")
  end.

(** [user_data[key] = ...] through that name: the session's dict changes in
    place, before anything is written to Firestore. *)
Definition mutate_user_data (f : user_dict -> user_dict) : M unit :=
  modify_session (fun s => set_user_data (f <$> user_data s) s).

(** The value Firestore receives for a dict. *)
Definition to_doc (s : session) (d : user_dict) : doc :=
  with_history (dict_history s d) d.

(** [update_user_data(data)]. *)
Definition update_user_data (data : user_dict) : M bool :=
  let* s := get_session in
  match username s, user_data s with
  | Some u, Some _ =>
      if truthy u && firebase_initialized s then
        emit (firestore_set u (to_doc s data)) ;;;
        modify_db (db_set_merge u (to_doc s data)) ;;;
        modify_session (set_user_data (Some data)) ;;;
        ret true
      else ret false
  | _, _ => ret false
  end.

(** [save_chat_history()]: [doc_ref.update] needs the document to exist. *)
Definition save_chat_history : M unit :=
  let* s := get_session in
  match username s, user_data s with
  | Some u, Some _ =>
      if truthy u && firebase_initialized s then
        let* d := get_db in
        match db_get u d with
        | Some old =>
            emit (firestore_update u (chat_history s)) ;;;
            modify_db (db_set u (with_history (Some (chat_history s)) old))
        | None => raise (OtherException "NotFound")
        end
      else ret tt
  | _, _ => ret tt
  end.

Definition read_pdf_text (E : env) (file_path : string) : M (option string) :=
  match env_pdf E file_path with
  | ReadOk text => ret (Some text)
  | FileNotFound =>
      emit (st_error ("PDF file not found: " ++ file_path)) ;;; ret None
  | ReadFailed e =>
      emit (st_error ("Error reading PDF file " ++ file_path ++ ": " ++ e)) ;;;
      ret None
  end.

Definition read_text_file (E : env) (file_path : string) : M (option string) :=
  match env_txt E file_path with
  | ReadOk text => ret (Some text)
  | FileNotFound =>
      emit (st_error ("Text file not found: " ++ file_path)) ;;; ret None
  | ReadFailed e =>
      emit (st_error ("Error reading text file " ++ file_path ++ ": " ++ e)) ;;;
      ret None
  end.

Definition text_to_speech (E : env) (text : string) : M (option string) :=
  emit (gTTS text) ;;;
  match env_speech E text with
  | Audio bytes => ret (Some bytes)
  | SpeechRaises e =>
      emit (st_error ("Error converting text to speech: " ++ e)) ;;; ret None
  end.

(** [generate_image(prompt)]. *)
Definition generate_image (E : env) (prompt : string) : M (option string) :=
  modify_session (set_generating_image true) ;;;
  try_finally
    (emit (images_generate prompt) ;;;
     match env_image E prompt with
     | ImageUrl url =>
         if truthy url then ret (Some url)
         else
           emit (st_error "DALL-E image generation failed: No image data returned. Check Streamlit Cloud logs for full response details.") ;;;
           ret None
     | ImageNoData =>
         emit (st_error "DALL-E image generation failed: No image data returned. Check Streamlit Cloud logs for full response details.") ;;;
         ret None
     | ImageRaises (APIError e) =>
         emit (st_error ("OpenAI DALL-E API error: " ++ e ++ ". Please check your API key, permissions, and DALL-E quota. See Streamlit Cloud logs for more details.")) ;;;
         ret None
     | ImageRaises (OtherException e) =>
         emit (st_error ("An unexpected error occurred during DALL-E image generation: " ++ e ++ ". Check Streamlit Cloud logs for details.")) ;;;
         ret None
     end)
    (set_generating_image false).

(** [client.chat.completions.create(...)], then [.choices[0].message.content]. *)
Definition chat_completion (E : env) (messages : list message) (max_tokens : Z)
  : M string :=
  emit (chat_completions_create messages max_tokens) ;;;
  match env_chat E messages with
  | ChatOk content => ret content
  | ChatRaises e => raise e
  end.

(** ** User interaction *)

(** The widget operated in a run.  Streamlit reports one button per run;
    a widget that the run does not draw cannot be operated, and a page
    ignores the widgets of the others. *)
Inductive event :=
| Render
| SidebarProfile
| SidebarTutor
| SidebarLogout
| SidebarLogin
| SidebarRegister
| LoginSubmit (name password : string)
| RegisterHere
| LoginResetPassword
| RegisterSubmit (first last name mail password confirm_password : string)
| LoginHere
| RegisterResetPassword
| UpdatePreferences (learning_style learning_pace difficulty_level : string)
| UpdateSubjects (selected_subjects : list string)
| GoToTutorPage
| StartStudySession (selected_subject_for_session student_grade : string)
| ChangeStudySubject
| SendToTutor (user_input : string)
| GenerateVisualExplanation
| BackToProfile.

(** ** Pages *)

Definition not_initialized_warning : string :=
  "Firebase is not initialized. Please ensure FIREBASE_SERVICE_ACCOUNT_KEY_B64 is set in Streamlit Cloud environment variables.".

(** [user_doc.to_dict()] followed by
    [st.session_state.chat_history = user_data.get('chat_history', [])]:
    the session name and the dict key hold one list object. *)
Definition to_dict (d : doc) : user_dict :=
  with_history (match chat_history_field d with
                | Some _ => Some HistShared
                | None => None
                end) d.

Definition login_page (E : env) (ev : event) : M unit :=
  let* s := get_session in
  if negb (firebase_initialized s) then
    emit (st_warning not_initialized_warning) ;;; py_return
  else
    match ev with
    | LoginSubmit name password =>
        let* d := get_db in
        match db_get name d with
        | Some user_doc =>
            if env_checkpw E password (password_hash user_doc) then
              modify_session (set_logged_in true) ;;;
              modify_session (set_username (Some name)) ;;;
              modify_session (set_user_data (Some (to_dict user_doc))) ;;;
              modify_session
                (set_chat_history (default [] (chat_history_field user_doc))) ;;;
              modify_session (set_current_page tutor) ;;;
              st_rerun
            else emit (st_error "Incorrect password.")
        | None => emit (st_error "Username not found.")
        end
    | RegisterHere => modify_session (set_current_page register) ;;; st_rerun
    | LoginResetPassword =>
        emit (st_info "Password reset functionality is not implemented in this demo. Please contact support.")
    | _ => ret tt
    end.

Definition initial_tokens : Z := 1000.

Definition register_page (E : env) (ev : event) : M unit :=
  let* s := get_session in
  if negb (firebase_initialized s) then
    emit (st_warning not_initialized_warning) ;;; py_return
  else
    match ev with
    | RegisterSubmit first last name mail password confirm_password =>
        if negb (String.eqb password confirm_password) then
          emit (st_error "Passwords do not match.")
        else if negb (truthy name) || negb (truthy password) || negb (truthy first)
                || negb (truthy last) || negb (truthy mail) then
          emit (st_error "All fields are required.")
        else
          let* d := get_db in
          match db_get name d with
          | Some _ =>
              emit (st_error "Username already exists. Please choose a different one.")
          | None =>
              let hashed_pass := env_hashpw E password in
              let user_data : doc :=
                UserRecord first last mail name hashed_pass (Some initial_tokens)
                  (Some (Prefs "interactive" "moderate" "beginner"))
                  (Some []) (Some []) in
              emit (firestore_set name user_data) ;;;
              modify_db (db_set name user_data) ;;;
              emit (st_success "Registration successful! You can now log in.") ;;;
              modify_session (set_current_page login) ;;;
              st_rerun
          end
    | LoginHere => modify_session (set_current_page login) ;;; st_rerun
    | RegisterResetPassword =>
        emit (st_info "Password reset functionality is not implemented in this demo. Please contact support.")
    | _ => ret tt
    end.

Definition is_none {A} (o : option A) : bool :=
  match o with Some _ => false | None => true end.

Definition profile_page (ev : event) : M unit :=
  let* s := get_session in
  if negb (logged_in s) || is_none (user_data s) then
    emit (st_warning "Please log in to view your profile.") ;;;
    modify_session (set_current_page login) ;;;
    st_rerun ;;;
    py_return
  else if negb (firebase_initialized s) then
    emit (st_error not_initialized_warning) ;;; py_return
  else
    match ev with
    | UpdatePreferences learning_style learning_pace difficulty_level =>
        mutate_user_data
          (with_learning_preferences
             (Prefs learning_style learning_pace difficulty_level)) ;;;
        let* user_data := the_user_data in
        let* ok := update_user_data user_data in
        if ok then emit (st_success "Learning preferences updated successfully!")
        else emit (st_error "Failed to update learning preferences.")
    | UpdateSubjects selected_subjects =>
        if (5 <? Z.of_nat (length selected_subjects))%Z then
          emit (st_error "You can select a maximum of 5 subjects.")
        else
          mutate_user_data (with_subjects selected_subjects) ;;;
          let* user_data := the_user_data in
          let* ok := update_user_data user_data in
          if ok then emit (st_success "Subjects updated successfully!")
          else emit (st_error "Failed to update subjects.")
    | GoToTutorPage => modify_session (set_current_page tutor) ;;; st_rerun
    | _ => ret tt
    end.

(** *** The tutor page *)

Definition placeholder_subject : string := "-- Select a Subject --".

Definition available_study_subjects : list string :=
  ["English A"; "Mathematics"; "Biology"; "Integrated Science";
   "Agricultural Science"; "Chemistry"; "Human and Social Biology";
   "Physics"; "Social Studies"; "Principles of Business"; "Geography"].

(** [selected_subject_for_session.replace(" ", "_").replace("/", "-")]. *)
Definition subject_file_name (subject : string) : string :=
  replace_char "/" "-" (replace_char " " "_" subject).

Definition syllabus_file_path (subject : string) : string :=
  "subject_context/syl_" ++ subject_file_name subject ++ ".pdf".

Definition context_file_path (subject : string) : string :=
  "subject_context/con_" ++ subject_file_name subject ++ ".txt".

Definition indent : string := "                ".

(** The formatting instructions of the system prompt.  The literal is not a
    raw string, so Python reads the backslash-t of the LaTeX commands as a
    tab and backslash-r as a carriage return. *)
Definition equation_instructions : string :=
  indent ++ "**IMPORTANT INSTRUCTION FOR EQUATIONS:**" ++ nl ++
  indent ++ "Whenever you present a chemical equation, mathematical formula, or any scientific notation, please format it using LaTeX." ++ nl ++
  indent ++ "Use `$$...$$` for block equations (on their own line) and `$...$` for inline equations within text." ++ nl ++
  indent ++ "For chemical symbols within LaTeX, use `" ++ tab ++ "ext{Symbol}` to ensure they are rendered as plain text (e.g., `$" ++ tab ++ "ext{H}_2" ++ tab ++ "ext{O}$` for H2O)." ++ nl ++
  indent ++ "Example: The balanced equation for water formation is $$" ++ tab ++ "ext{2H}_2 + " ++ tab ++ "ext{O}_2 " ++ cr ++ "ightarrow " ++ tab ++ "ext{2H}_2" ++ tab ++ "ext{O}$$" ++ nl.

Definition initial_system_prompt (subject student_grade syllabus context : string)
  : string :=
  nl ++
  indent ++ "You are an AI tutor specializing in " ++ subject ++ "." ++ nl ++
  indent ++ "Your responses should be tailored to the student's preferences and selected subject." ++ nl ++
  indent ++ "Student's Grade Level: " ++ student_grade ++ nl ++
  indent ++ nl ++
  equation_instructions ++
  indent ++ "---" ++ nl ++
  indent ++ "Syllabus for " ++ subject ++ ":" ++ nl ++
  indent ++ syllabus ++ nl ++
  indent ++ "---" ++ nl ++
  indent ++ "Additional Context for " ++ subject ++ ":" ++ nl ++
  indent ++ context ++ nl ++
  indent ++ "---" ++ nl ++
  indent ++ "Be helpful, patient, and provide clear explanations. Ensure your answers are strictly within the scope of the provided syllabus and context." ++ nl ++
  indent.

Definition initial_tutor_message (subject : string) : string :=
  "Hello! Welcome to your " ++ subject ++ " study session. I'm ready to help you with any questions you have based on the syllabus and context provided. How can I assist you today?".

(** The body of [if start_session_button:]. *)
Definition start_study_session (E : env)
    (selected_subject_for_session student_grade : string) : M unit :=
  when (String.eqb selected_subject_for_session placeholder_subject)
    (emit (st_warning "Please select a valid subject to start your study session.") ;;;
     st_stop) ;;;
  modify_session (set_current_study_subject (Some selected_subject_for_session)) ;;;
  let* syllabus_content :=
    read_pdf_text E (syllabus_file_path selected_subject_for_session) in
  match syllabus_content with
  | None => st_stop
  | Some syllabus_content =>
      let* context_content :=
        read_text_file E (context_file_path selected_subject_for_session) in
      match context_content with
      | None => st_stop
      | Some context_content =>
          modify_session (set_active_syllabus syllabus_content) ;;;
          modify_session (set_active_subject_context context_content) ;;;
          modify_session (set_subject_context_loaded true) ;;;
          modify_session rebind_chat_history ;;;
          let* s := get_session in
          modify_session
            (append_chat_history
               (Msg system
                  (initial_system_prompt
                     (default "None" (current_study_subject s)) student_grade
                     (active_syllabus s) (active_subject_context s)))) ;;;
          modify_session
            (append_chat_history
               (Msg assistant
                  (initial_tutor_message
                     (default "None" (current_study_subject s))))) ;;;
          save_chat_history ;;;
          st_rerun
      end
  end.

(** [user_data['tokens'] += delta] on the session's dict. *)
Definition adjust_tokens (delta : Z) : M unit :=
  let* user_data := the_user_data in
  match tokens user_data with
  | Some t => mutate_user_data (with_tokens (Some (t + delta)))
  | None => raise (OtherException "KeyError: 'tokens'")
  end.

(** The body of [if send_button and user_input:]. *)
Definition send_to_tutor (E : env) (current_tokens : Z) (user_input : string)
  : M unit :=
  if (current_tokens <=? 0)%Z then
    emit (st_error "You have no tokens left! Please contact support for more.") ;;;
    py_return
  else
    adjust_tokens (-1) ;;;
    (let* user_data := the_user_data in update_user_data user_data) ;;;
    modify_session (append_chat_history (Msg user user_input)) ;;;
    save_chat_history ;;;
    let* s := get_session in
    let messages := chat_history s in
    try_except
      (let* tutor_response := chat_completion E messages 500 in
       modify_session (append_chat_history (Msg assistant tutor_response)) ;;;
       text_to_speech E tutor_response ;;;
       save_chat_history ;;;
       st_rerun)
      (fun e =>
         emit (st_error
                 (match e with
                  | APIError t => "OpenAI API error: " ++ t
                  | OtherException t => "An unexpected error occurred: " ++ t
                  end)) ;;;
         adjust_tokens 1 ;;;
         (let* user_data := the_user_data in update_user_data user_data) ;;;
         ret tt).

Definition IMAGE_GENERATION_COST : Z := 50.

(** [for msg in reversed(chat_history): if msg["role"] == "assistant": ...; break],
    starting from [""]. *)
Fixpoint first_assistant (l : list message) : string :=
  match l with
  | [] => ""
  | msg :: rest =>
      if role_eqb (msg_role msg) assistant then msg_content msg
      else first_assistant rest
  end.

Definition last_tutor_message (h : list message) : string := first_assistant (rev h).

Definition image_prompt_generation_messages (last : string) : list message :=
  [Msg system "You are an assistant that generates concise, descriptive image prompts based on provided text, suitable for a visual learner. Focus on key concepts. Max 50 words.";
   Msg user ("Generate an image prompt based on this: " ++ last)].

(** The statements that follow [st.rerun()] in the illustration branch:
    the DALL-E call and what is done with its result. *)
Definition show_generated_image (E : env) (image_gen_prompt : string) : M unit :=
  let* generated_image_url := generate_image E image_gen_prompt in
  match generated_image_url with
  | Some url =>
      modify_session (append_chat_history (Msg image url)) ;;;
      save_chat_history ;;;
      st_rerun
  | None => emit (st_error "Failed to generate visual explanation.")
  end.

(** The body of [elif generate_visual_button:]. *)
Definition generate_visual (E : env) (current_tokens : Z) : M unit :=
  if (current_tokens <? IMAGE_GENERATION_COST)%Z then
    emit (st_error ("You need at least " ++ pretty IMAGE_GENERATION_COST
                    ++ " tokens to generate a visual. You have "
                    ++ pretty current_tokens ++ " tokens.")) ;;;
    py_return
  else
    adjust_tokens (- IMAGE_GENERATION_COST) ;;;
    (let* user_data := the_user_data in update_user_data user_data) ;;;
    let* s := get_session in
    let last := last_tutor_message (chat_history s) in
    if negb (truthy last) then
      emit (st_warning "No recent tutor message to generate a visual from. Please ask a question first.") ;;;
      py_return
    else
      let* image_gen_prompt :=
        try_except
          (chat_completion E (image_prompt_generation_messages last) 50)
          (fun e =>
             emit (st_error
                     (match e with
                      | APIError t => "Error generating image prompt: " ++ t
                      | OtherException t =>
                          "An unexpected error occurred while crafting image prompt: " ++ t
                      end)) ;;;
             adjust_tokens IMAGE_GENERATION_COST ;;;
             (let* user_data := the_user_data in update_user_data user_data) ;;;
             halt SReturn) in
      if truthy image_gen_prompt then
        modify_session
          (append_chat_history
             (Msg assistant ("Generating a visual for: '" ++ image_gen_prompt ++ "'"))) ;;;
        save_chat_history ;;;
        st_rerun ;;;
        show_generated_image E image_gen_prompt
      else emit (st_warning "Could not generate a suitable image prompt.").

Definition tutor_page (E : env) (ev : event) : M unit :=
  let* s := get_session in
  if negb (logged_in s) || is_none (user_data s) then
    emit (st_warning "Please log in to access the tutor.") ;;;
    modify_session (set_current_page login) ;;;
    st_rerun ;;;
    py_return
  else if negb (openai_initialized s) then
    emit (st_error "OpenAI API is not initialized. Cannot use tutor.") ;;; py_return
  else if negb (firebase_initialized s) then
    emit (st_error not_initialized_warning) ;;; py_return
  else
    let* user_data := the_user_data in
    let current_tokens := default 0%Z (tokens user_data) in
    if negb (truthy_opt (current_study_subject s))
       || negb (subject_context_loaded s) then
      match ev with
      | StartStudySession selected_subject_for_session student_grade =>
          start_study_session E selected_subject_for_session student_grade
      | _ => ret tt
      end
    else
      match ev with
      | ChangeStudySubject =>
          modify_session (set_current_study_subject None) ;;;
          modify_session (set_subject_context_loaded false) ;;;
          modify_session rebind_chat_history ;;;
          st_rerun ;;;
          py_return
      | _ => ret tt
      end ;;;
      match ev with
      | SendToTutor user_input =>
          when (truthy user_input) (send_to_tutor E current_tokens user_input)
      | GenerateVisualExplanation =>
          when (negb (generating_image s)) (generate_visual E current_tokens)
      | _ => ret tt
      end ;;;
      match ev with
      | BackToProfile => modify_session (set_current_page profile) ;;; st_rerun
      | _ => ret tt
      end.

(** ** The script *)

(** Module level: Firebase and OpenAI set-up, run at the top of every run. *)
Definition initialize (E : env) : M unit :=
  when (negb (env_firebase_key E))
    (emit (st_warning "Firebase service account key (FIREBASE_SERVICE_ACCOUNT_KEY_B64) not found in environment variables. Please set it securely.")) ;;;
  when (negb (env_openai_key E))
    (emit (st_error "OpenAI API key not found in Streamlit secrets. Please add it.")) ;;;
  modify_session (set_flags (env_firebase_key E) (env_openai_key E)).

(** The defaults installed by the [if 'key' not in st.session_state] guards. *)
Definition initial_session : session :=
  Session false false false login None None [] None false "" "" false.

Definition main (E : env) (ev : event) : M unit :=
  let* s := get_session in
  (if logged_in s then
     match ev with
     | SidebarProfile => modify_session (set_current_page profile) ;;; st_rerun
     | SidebarTutor => modify_session (set_current_page tutor) ;;; st_rerun
     | SidebarLogout =>
         modify_session (set_logged_in false) ;;;
         modify_session (set_username None) ;;;
         modify_session (set_user_data None) ;;;
         modify_session rebind_chat_history ;;;
         modify_session (set_current_page login) ;;;
         st_rerun
     | _ => ret tt
     end
   else
     match ev with
     | SidebarLogin => modify_session (set_current_page login) ;;; st_rerun
     | SidebarRegister => modify_session (set_current_page register) ;;; st_rerun
     | _ => ret tt
     end) ;;;
  let* s := get_session in
  match current_page s with
  | login => call (login_page E ev)
  | register => call (register_page E ev)
  | profile => call (profile_page ev)
  | tutor => call (tutor_page E ev)
  end.

(** One run of the script on a fresh page. *)
Definition run (E : env) (ev : event) (m : machine) : result unit * machine :=
  match m with
  | Machine s d _ => (initialize E ;;; main E ev) (Machine s d [])
  end.

Definition step (E : env) (ev : event) (m : machine) : machine := snd (run E ev m).

(** A browser session: the runs one after the other. *)
Fixpoint steps (l : list (env * event)) (m : machine) : machine :=
  match l with
  | [] => m
  | (E, ev) :: rest => steps rest (step E ev m)
  end.

Definition initial_machine (users : gmap string doc) : machine :=
  Machine initial_session users [].

(** ** States of the conversation engine *)

Definition page_eqb (a b : page) : bool :=
  match a, b with
  | login, login | register, register | profile, profile | tutor, tutor => true
  | _, _ => false
  end.

(** The tutor page is reached by a logged-in user, with both services
    configured; the session flags are those an earlier run under the same
    configuration left. *)
Definition tutor_ready (E : env) (s : session) : bool :=
  env_firebase_key E && env_openai_key E
  && firebase_initialized s && openai_initialized s
  && logged_in s && negb (is_none (user_data s))
  && page_eqb (current_page s) tutor.

(** Active: a subject is selected and its context is loaded, so the chat
    interface is drawn.  Otherwise the subject form is drawn (NoSubject). *)
Definition subject_active (s : session) : bool :=
  truthy_opt (current_study_subject s) && subject_context_loaded s.

(** The token balance shown to the user: [user_data.get('tokens', 0)]. *)
Definition balance (s : session) : Z :=
  match user_data s with
  | Some d => default 0%Z (tokens d)
  | None => 0%Z
  end.

(** The balance stored for a user. *)
Definition stored_balance (name : string) (d : gmap string doc) : option Z :=
  db_get name d ≫= tokens.

(** The transcript stored for a user. *)
Definition stored_history (name : string) (d : gmap string doc)
  : option (list message) :=
  db_get name d ≫= chat_history_field.

Definition both_files (E : env) (subject : string) : option (string * string) :=
  match env_pdf E (syllabus_file_path subject) with
  | ReadOk syllabus =>
      match env_txt E (context_file_path subject) with
      | ReadOk context => Some (syllabus, context)
      | _ => None
      end
  | _ => None
  end.

Definition is_chat_call (x : io) : bool :=
  match x with chat_completions_create _ _ => true | _ => false end.

Definition is_api_call (x : io) : bool :=
  match x with
  | chat_completions_create _ _ | images_generate _ | gTTS _ => true
  | _ => false
  end.

Definition has_role (r : role) (msg : message) : bool := role_eqb (msg_role msg) r.

(** [part] occurs in [s]. *)
Definition occurs_in (part s : string) : Prop :=
  exists before after, s = before ++ part ++ after.

(** The number of chat-completion calls a run made. *)
Definition chat_calls (o : list io) : nat := length (List.filter is_chat_call o).

(** The first entry of a transcript is a system message holding the system
    prompt of [subject], built from the loaded syllabus and context. *)
Definition headed_by_system_prompt (s : session) (subject : string) : Prop :=
  exists grade rest,
    chat_history s =
      Msg system
        (initial_system_prompt subject grade (active_syllabus s)
           (active_subject_context s)) :: rest.

(** The token balance is non-negative, in the session and in every stored
    user record. *)
Definition record_nonneg {H} (r : user_record H) : Prop :=
  forall t, tokens r = Some t -> (0 <= t)%Z.

Definition balance_nonneg (m : machine) : Prop :=
  (forall d, user_data (ss m) = Some d -> record_nonneg d) /\
  (forall name d, db_get name (db m) = Some d -> record_nonneg d).

Definition is_image_call (x : io) : bool :=
  match x with images_generate _ => true | _ => false end.

Definition no_tutor_message_warning : string :=
  "No recent tutor message to generate a visual from. Please ask a question first.".

Definition db_nonneg (d : gmap string doc) : Prop :=
  forall name r, db_get name d = Some r -> record_nonneg r.

(** What a piece of script establishes from a given state. *)
Definition wp {A} (c : M A) (m : machine) (Q : result A -> machine -> Prop) : Prop :=
  match c m with (r, m') => Q r m' end.

(** ** Concrete worlds and sessions *)

(** Every service answers: both files of every subject are readable. *)
Definition demo_env : env :=
  Env true true
    (fun _ => ReadOk "Algebra. Geometry.")
    (fun _ => ReadOk "Use worked examples.")
    (fun _ => ChatOk "2+2 = 4")
    (fun _ => ImageUrl "https://images.example/1.png")
    (fun _ => Audio "mp3")
    (fun p => "bcrypt:" ++ p)
    (fun p h => String.eqb h ("bcrypt:" ++ p)).

(** No syllabus file on disk. *)
Definition env_without_syllabus : env :=
  Env true true
    (fun _ => FileNotFound)
    (env_txt demo_env) (env_chat demo_env) (env_image demo_env)
    (env_speech demo_env) (env_hashpw demo_env) (env_checkpw demo_env).

(** The chat-completion API raises. *)
Definition env_chat_down : env :=
  Env true true (env_pdf demo_env) (env_txt demo_env)
    (fun _ => ChatRaises (APIError "rate limit exceeded"))
    (env_image demo_env) (env_speech demo_env) (env_hashpw demo_env)
    (env_checkpw demo_env).

(** The image API raises; chat completion works. *)
Definition env_image_down : env :=
  Env true true (env_pdf demo_env) (env_txt demo_env) (env_chat demo_env)
    (fun _ => ImageRaises (APIError "quota exceeded"))
    (env_speech demo_env) (env_hashpw demo_env) (env_checkpw demo_env).

Definition with_env (E : env) (l : list event) : list (env * event) :=
  map (fun ev => (E, ev)) l.

(** alice and bob register; alice logs in. *)
Definition alice_logged_in : machine :=
  steps
    (with_env demo_env
       [RegisterHere;
        RegisterSubmit "Alice" "Ames" "alice" "alice@example.org" "pw1" "pw1";
        RegisterHere;
        RegisterSubmit "Bob" "Birch" "bob" "bob@example.org" "pw2" "pw2";
        LoginSubmit "alice" "pw1"])
    (initial_machine ∅).

(** alice starts a Mathematics session. *)
Definition alice_studying : machine :=
  step demo_env (StartStudySession "Mathematics" "High School") alice_logged_in.

(** alice logs out and bob logs in, in the same browser session. *)
Definition bob_after_alice : machine :=
  steps (with_env demo_env [SidebarLogout; LoginSubmit "bob" "pw2"])
    alice_studying.

(** A session down to its last token. *)
Definition set_balance (b : Z) (m : machine) : machine :=
  match m with
  | Machine s d o =>
      Machine (set_user_data (with_tokens (Some b) <$> user_data s) s) d o
  end.

Definition alice_last_token : machine := set_balance 1 alice_studying.

(** alice asks to change subject during her Mathematics session. *)
Definition alice_changes_subject : machine :=
  step demo_env ChangeStudySubject alice_studying.

(** alice starts Mathematics while the syllabus file is missing. *)
Definition alice_missing_syllabus : machine :=
  step env_without_syllabus (StartStudySession "Mathematics" "High School")
    alice_logged_in.

(** bob, logged in after alice, sends a question. *)
Definition bob_sends : machine := step demo_env (SendToTutor "hi") bob_after_alice.

(** The image prompt the demo chat completion returns. *)
Definition visual_prompt : string := "2+2 = 4".

(** ** Further functions and states *)

(** [load_user_data(username)]: defined in app.py beside the other helpers;
    [get_user_doc_ref] gives no reference when Firebase is not initialised. *)
Definition load_user_data (name : string) : M bool :=
  let* s := get_session in
  if firebase_initialized s then
    let* d := get_db in
    match db_get name d with
    | Some user_doc =>
        modify_session (set_user_data (Some (to_dict user_doc))) ;;;
        modify_session
          (set_chat_history (default [] (chat_history_field user_doc))) ;;;
        ret true
    | None => ret false
    end
  else ret false.

(** Both services are configured and the session flags already say so. *)
Definition configured (E : env) (s : session) : bool :=
  env_firebase_key E && env_openai_key E
  && firebase_initialized s && openai_initialized s.

(** The registration form passes its own checks. *)
Definition valid_registration (first last name mail password confirm_password : string)
  : bool :=
  String.eqb password confirm_password
  && truthy name && truthy password && truthy first && truthy last && truthy mail.

(** The document written for a new user. *)
Definition new_user_record (E : env) (first last name mail password : string) : doc :=
  UserRecord first last mail name (env_hashpw E password) (Some initial_tokens)
    (Some (Prefs "interactive" "moderate" "beginner")) (Some []) (Some []).


(** The characters of a string. *)
Fixpoint chars (s : string) : list ascii :=
  match s with
  | EmptyString => []
  | String c s' => c :: chars s'
  end.

Definition is_login_submit (ev : event) : bool :=
  match ev with LoginSubmit _ _ => true | _ => false end.

(** The username exists and the password matches its stored hash. *)
Definition credentials_ok (E : env) (name password : string) (d : gmap string doc)
  : bool :=
  match db_get name d with
  | Some r => env_checkpw E password (password_hash r)
  | None => false
  end.

(** The profile page is drawn for a logged-in user. *)
Definition profile_ready (E : env) (s : session) : bool :=
  configured E s && logged_in s && negb (is_none (user_data s))
  && page_eqb (current_page s) profile.

Definition is_db_write (x : io) : bool :=
  match x with firestore_set _ _ | firestore_update _ _ => true | _ => false end.

(** ** Further concrete worlds and sessions *)

(** The chat completion answers with an empty text. *)
Definition env_empty_reply : env :=
  Env true true (env_pdf demo_env) (env_txt demo_env)
    (fun _ => ChatOk "")
    (env_image demo_env) (env_speech demo_env) (env_hashpw demo_env)
    (env_checkpw demo_env).

(** No Firebase service account key. *)
Definition env_without_firebase : env :=
  Env false true (env_pdf demo_env) (env_txt demo_env) (env_chat demo_env)
    (env_image demo_env) (env_speech demo_env) (env_hashpw demo_env)
    (env_checkpw demo_env).

(** No OpenAI API key. *)
Definition env_without_openai : env :=
  Env true false (env_pdf demo_env) (env_txt demo_env) (env_chat demo_env)
    (env_image demo_env) (env_speech demo_env) (env_hashpw demo_env)
    (env_checkpw demo_env).

(** A fresh browser session on the register page, nobody registered. *)
Definition visitor_registering : machine :=
  step demo_env RegisterHere (initial_machine ∅).

Definition alice_record : doc :=
  new_user_record demo_env "Alice" "Ames" "alice" "alice@example.org" "pw1".

(** alice is registered; the visitor is back on the login page. *)
Definition alice_registered : machine :=
  step demo_env
    (RegisterSubmit "Alice" "Ames" "alice" "alice@example.org" "pw1" "pw1")
    visitor_registering.

(** The register page again, with alice already registered. *)
Definition second_visitor_registering : machine :=
  step demo_env RegisterHere alice_registered.

(** alice on her profile page. *)
Definition alice_on_profile : machine :=
  step demo_env SidebarProfile alice_logged_in.

(** alice in her Mathematics session with no token left. *)
Definition alice_without_tokens : machine := set_balance 0 alice_studying.

Definition six_subjects : list string :=
  ["English A"; "Mathematics"; "Biology"; "Chemistry"; "Physics"; "Geography"].

(** * Verification *)

(** ** Symbolic execution of a run *)

Lemma wp_run E ev m (Q : result unit -> machine -> Prop) :
  wp (fun m0 => run E ev m0) m Q -> Q (fst (run E ev m)) (snd (run E ev m)).
Proof. unfold wp. destruct (run E ev m). auto. Qed.

Lemma wp_step E ev m (P : machine -> Prop) :
  wp (fun m0 => run E ev m0) m (fun _ m' => P m') -> P (step E ev m).
Proof. unfold wp, step. destruct (run E ev m). auto. Qed.

Lemma db_get_set name data (d : gmap string doc) :
  db_get name (db_set name data d) = Some data.
Proof. unfold db_get, db_set. apply lookup_insert_eq. Qed.

Lemma db_get_set_merge name data (d : gmap string doc) :
  db_get name (db_set_merge name data d) = Some (merge_doc data (db_get name d)).
Proof. unfold db_get, db_set_merge. apply lookup_insert_eq. Qed.

Lemma db_get_set_ne name name' data (d : gmap string doc) :
  name <> name' -> db_get name' (db_set name data d) = db_get name' d.
Proof. intros. unfold db_get, db_set. by apply lookup_insert_ne. Qed.

Lemma db_get_set_merge_ne name name' data (d : gmap string doc) :
  name <> name' -> db_get name' (db_set_merge name data d) = db_get name' d.
Proof. intros. unfold db_get, db_set_merge. by apply lookup_insert_ne. Qed.

Lemma tokens_with_tokens {H} t (d : user_record H) : tokens (with_tokens t d) = t.
Proof. by destruct d. Qed.

Lemma tokens_with_history {H H'} (h : option H') (d : user_record H) :
  tokens (with_history h d) = tokens d.
Proof. by destruct d. Qed.

Lemma tokens_to_doc s d : tokens (to_doc s d) = tokens d.
Proof. apply tokens_with_history. Qed.

Lemma truthy_empty : truthy "" = false.
Proof. reflexivity. Qed.

(** Head reduction of the script, up to the first test it cannot decide. *)
Ltac whnf :=
  lazy head beta iota zeta delta
    [wp run initialize main login_page register_page profile_page tutor_page
     start_study_session send_to_tutor generate_visual show_generated_image
     generate_image chat_completion text_to_speech read_pdf_text read_text_file
     update_user_data save_chat_history adjust_tokens the_user_data
     mutate_user_data bind ret call halt py_return st_stop st_rerun raise
     try_except try_finally get_session modify_session get_db modify_db emit
     when negb orb andb is_none].

(** Normal form of the state: record fields and their updates. *)
Ltac settle_in t :=
  eval cbv beta iota zeta delta
    [ss db out
     firebase_initialized openai_initialized logged_in current_page username
     user_data chat_history current_study_subject subject_context_loaded
     active_syllabus active_subject_context generating_image
     set_flags set_logged_in set_current_page set_username set_user_data
     set_chat_history set_current_study_subject set_subject_context_loaded
     set_active_syllabus set_active_subject_context set_generating_image
     rebind_chat_history append_chat_history
     env_firebase_key env_openai_key env_pdf env_txt env_chat env_image
     env_speech env_hashpw env_checkpw
     fst snd fmap option_fmap option_map from_option id]
  in t.

Ltac settle :=
  match goal with |- ?G => let G' := settle_in G in change G' end;
  cbn [app negb orb andb].

Ltac stuck_at t :=
  lazymatch t with
  | match ?x with _ => _ end => stuck_at x
  | (match ?x with _ => _ end) _ => stuck_at x
  | _ => t
  end.

Ltac head_of t :=
  lazymatch t with
  | ?f _ => head_of f
  | _ => t
  end.

(** One step: reduce to the next undecided test, put it in normal form, and
    decide it from a hypothesis, from the store laws, or by cases. *)
Ltac advance :=
  whnf;
  lazymatch goal with
  | |- match ?x with _ => _ end =>
      let t := stuck_at x in
      let t' := settle_in t in
      change t with t';
      let h := head_of t' in
      first
        [ is_constructor h
        | lazymatch t' with
          | truthy_opt (Some ?x) => change t' with (truthy x)
          | truthy_opt None => change t' with false
          end
        | match goal with
          | H : ?l = _ |- _ =>
              lazymatch t' with context [l] => rewrite H end
          end
        | rewrite db_get_set
        | rewrite db_get_set_merge
        | rewrite truthy_empty
        | rewrite tokens_with_tokens
        | match t' with
          | context [match ?y with _ => _ end] => destruct y eqn:?
          end
        | destruct t' eqn:? ]
  end.

Ltac symex := repeat advance; whnf; settle.

(** Open up a machine and an environment, and read [tutor_ready] and
    [subject_active] as facts about their fields. *)
Ltac split_andb :=
  repeat match goal with
    | H : _ && _ = true |- _ => apply andb_true_iff in H; destruct H
    end.

Ltac on_tutor_page m E :=
  destruct m as [[fb oa li pg un ud ch subj loaded syl ctx gi] d o];
  destruct E as [fbk oak pdf txt chat img speech hashpw checkpw];
  cbv beta iota delta
    [tutor_ready subject_active both_files ss db out
     firebase_initialized openai_initialized logged_in current_page username
     user_data chat_history current_study_subject subject_context_loaded
     active_syllabus active_subject_context generating_image
     env_firebase_key env_openai_key env_pdf env_txt env_chat env_image
     env_speech env_hashpw env_checkpw] in *;
  split_andb; subst;
  try (destruct ud as [ud|]; [|discriminate]);
  try (destruct pg; try discriminate);
  try (destruct (truthy_opt subj) eqn:Hsubj; destruct loaded; try discriminate).

(** C1, as amended.  When the syllabus or the context file of the selected
    subject is missing or unreadable, the start of the study session stops
    the script with an error on the page.  The selected subject has already
    been stored in [current_study_subject]; every other field of the
    session (loaded syllabus and context, the context-loaded flag, the
    transcript, the user data) and the stored user records are unchanged. *)
Theorem missing_file_sets_subject_only E m subject grade :
  tutor_ready E (ss m) = true ->
  subject_active (ss m) = false ->
  subject <> placeholder_subject ->
  both_files E subject = None ->
  exists text,
    run E (StartStudySession subject grade) m =
      (Sig SStop,
       Machine (set_current_study_subject (Some subject) (ss m)) (db m)
         [st_error text]).
Proof.
  intros Hready Hactive Hsubject Hfiles.
  apply String.eqb_neq in Hsubject.
  assert (wp (fun m0 => run E (StartStudySession subject grade) m0) m
            (fun r m' => exists text,
               (r, m') = (Sig SStop,
                 Machine (set_current_study_subject (Some subject) (ss m)) (db m)
                   [st_error text]))) as Hwp.
  2:{ unfold wp in Hwp. destruct (run _ _ m). exact Hwp. }
  on_tutor_page m E.
  all: revert Hfiles;
    destruct (pdf (syllabus_file_path subject)) eqn:Hpdf;
    [destruct (txt (context_file_path subject)) eqn:Htxt; [intros; discriminate| |]| |];
    intros _.
  all: symex; eauto.
Qed.

Lemma append_assoc (a b c : string) : (a ++ b) ++ c = a ++ b ++ c.
Proof.
  induction a as [|x a IH]; [reflexivity|].
  change (String x ((a ++ b) ++ c) = String x (a ++ b ++ c)). by rewrite IH.
Qed.

Lemma occurs_in_here part rest : occurs_in part (part ++ rest).
Proof. exists "", rest. reflexivity. Qed.

Lemma occurs_in_later part skipped s :
  occurs_in part s -> occurs_in part (skipped ++ s).
Proof.
  intros (before & after & ->). exists (skipped ++ before), after.
  by rewrite append_assoc.
Qed.

Lemma system_prompt_contents subject grade syllabus context :
  let prompt := initial_system_prompt subject grade syllabus context in
  occurs_in subject prompt /\ occurs_in grade prompt /\
  occurs_in equation_instructions prompt /\
  occurs_in syllabus prompt /\ occurs_in context prompt.
Proof.
  unfold initial_system_prompt.
  repeat split; repeat (apply occurs_in_here || apply occurs_in_later).
Qed.

(** C5.  A successful start of a study session (both files readable) leaves
    a transcript of exactly two entries, whatever it held before: the system
    message, which contains the subject, the grade level, the formatting
    instructions, the syllabus and the context, and then the assistant's
    greeting. *)
Theorem start_study_session_seeds_transcript E m subject grade syllabus context :
  tutor_ready E (ss m) = true ->
  subject_active (ss m) = false ->
  subject <> placeholder_subject ->
  both_files E subject = Some (syllabus, context) ->
  let m' := step E (StartStudySession subject grade) m in
  let prompt := initial_system_prompt subject grade syllabus context in
  chat_history (ss m') =
    [Msg system prompt; Msg assistant (initial_tutor_message subject)] /\
  current_study_subject (ss m') = Some subject /\
  subject_context_loaded (ss m') = true /\
  active_syllabus (ss m') = syllabus /\
  active_subject_context (ss m') = context /\
  occurs_in subject prompt /\ occurs_in grade prompt /\
  occurs_in equation_instructions prompt /\
  occurs_in syllabus prompt /\ occurs_in context prompt.
Proof.
  intros Hready Hactive Hsubject Hfiles m' prompt.
  repeat (apply conj); try apply system_prompt_contents.
  all: subst m' prompt; apply String.eqb_neq in Hsubject;
    pattern (step E (StartStudySession subject grade) m); apply wp_step.
  all: on_tutor_page m E.
  all: revert Hfiles;
    destruct (pdf (syllabus_file_path subject)) eqn:Hpdf; try discriminate;
    destruct (txt (context_file_path subject)) eqn:Htxt; try discriminate;
    intros [= -> ->].
  all: symex; reflexivity.
Qed.

Lemma balance_positive s :
  (0 < balance s)%Z ->
  exists d, user_data s = Some d /\ tokens d = Some (balance s).
Proof.
  unfold balance. destruct (user_data s) as [d|]; [|lia].
  destruct (tokens d) as [t|] eqn:Ht; simpl; [eauto | lia].
Qed.

(** C4.  A send with non-empty input and a positive balance whose
    chat-completion call succeeds lowers the balance by exactly 1, appends
    the user message and then the assistant reply to the transcript, and
    makes exactly one chat-completion call; with balance 1 and a transcript
    of length 2 it ends with balance 0 and a transcript of length 4. *)
Theorem successful_send E m user_input reply :
  tutor_ready E (ss m) = true ->
  subject_active (ss m) = true ->
  truthy user_input = true ->
  (0 < balance (ss m))%Z ->
  env_chat E (chat_history (ss m) ++ [Msg user user_input])%list = ChatOk reply ->
  let m' := step E (SendToTutor user_input) m in
  balance (ss m') = (balance (ss m) - 1)%Z /\
  chat_history (ss m') =
    (chat_history (ss m) ++ [Msg user user_input; Msg assistant reply])%list /\
  chat_calls (out m') = 1%nat /\
  (balance (ss m) = 1%Z -> length (chat_history (ss m)) = 2%nat ->
   balance (ss m') = 0%Z /\ length (chat_history (ss m')) = 4%nat).
Proof.
  intros Hready Hactive Hinput Hbalance Hchat m'.
  assert (Hmain :
    balance (ss m') = (balance (ss m) - 1)%Z /\
    chat_history (ss m') =
      (chat_history (ss m) ++ [Msg user user_input; Msg assistant reply])%list /\
    chat_calls (out m') = 1%nat).
  { destruct (balance_positive _ Hbalance) as (d0 & Hd0 & Htokens).
    subst m'. revert Hbalance Htokens. generalize (balance (ss m)) as b.
    intros b Hbalance Htokens.
    pattern (step E (SendToTutor user_input) m); apply wp_step.
    on_tutor_page m E.
    assert (Hpos : (b <=? 0)%Z = false) by (apply Z.leb_gt; lia).
    symex.
    all: unfold balance; settle; rewrite tokens_with_tokens, <- app_assoc; auto. }
  destruct Hmain as (Hb & Hh & Hc). repeat split; auto.
  - lia.
  - rewrite Hh, length_app. simpl. lia.
Qed.

Lemma stored_balance_set_merge name (data : doc) d t :
  tokens data = Some t ->
  stored_balance name (db_set_merge name data d) = Some t.
Proof.
  intros Ht. unfold stored_balance. rewrite db_get_set_merge. simpl.
  destruct (db_get name d), data; simpl in *; by rewrite Ht.
Qed.

Lemma failed_send_from_active E m user_input e :
  tutor_ready E (ss m) = true ->
  subject_active (ss m) = true ->
  truthy user_input = true ->
  (0 < balance (ss m))%Z ->
  env_chat E (chat_history (ss m) ++ [Msg user user_input])%list = ChatRaises e ->
  let m' := step E (SendToTutor user_input) m in
  chat_calls (out m') = 1%nat /\
  balance (ss m') = balance (ss m) /\
  (forall name, username (ss m) = Some name -> truthy name = true ->
     stored_balance name (db m') = Some (balance (ss m))).
Proof.
  intros Hready Hactive Hinput Hbalance Hchat m'.
  destruct (balance_positive _ Hbalance) as (d0 & Hd0 & Htokens).
  subst m'. revert Hbalance Htokens. generalize (balance (ss m)) as b.
  intros b Hbalance Htokens.
  pattern (step E (SendToTutor user_input) m); apply wp_step.
  on_tutor_page m E.
  assert (Hpos : (b <=? 0)%Z = false) by (apply Z.leb_gt; lia).
  symex.
  all: unfold balance; settle; rewrite ?tokens_with_tokens.
  all: replace (b + -1 + 1)%Z with b by lia.
  all: (split; [reflexivity | split; [reflexivity|]]).
  all: intros name [= <-] Hname; try congruence.
  all: apply stored_balance_set_merge; by rewrite tokens_to_doc, tokens_with_tokens.
Qed.

Lemma first_assistant_none l :
  Forall (fun msg => msg_role msg <> assistant) l -> first_assistant l = "".
Proof.
  induction 1 as [|msg l Hmsg _ IH]; [reflexivity|].
  simpl. destruct (msg_role msg); simpl; congruence.
Qed.

Lemma last_tutor_message_none h :
  Forall (fun msg => msg_role msg <> assistant) h -> last_tutor_message h = "".
Proof.
  intros Hh. by apply first_assistant_none, List.Forall_rev.
Qed.

(** C10.  An illustration request with a balance of at least 50 and a
    transcript without any assistant message deducts 50 tokens and writes
    the new balance to the store first, then shows a warning and returns:
    no API is called and nothing is refunded. *)
Theorem visual_without_tutor_message E m name :
  tutor_ready E (ss m) = true ->
  subject_active (ss m) = true ->
  generating_image (ss m) = false ->
  username (ss m) = Some name ->
  truthy name = true ->
  (IMAGE_GENERATION_COST <= balance (ss m))%Z ->
  Forall (fun msg => msg_role msg <> assistant) (chat_history (ss m)) ->
  let m' := step E GenerateVisualExplanation m in
  (exists data,
     out m' = [firestore_set name data; st_warning no_tutor_message_warning] /\
     tokens data = Some (balance (ss m) - IMAGE_GENERATION_COST)%Z) /\
  List.filter is_api_call (out m') = [] /\
  stored_balance name (db m') = Some (balance (ss m) - IMAGE_GENERATION_COST)%Z /\
  balance (ss m') = (balance (ss m) - IMAGE_GENERATION_COST)%Z.
Proof.
  intros Hready Hactive Hgen Hname Htruthy Hbalance Hhist m'.
  apply last_tutor_message_none in Hhist.
  assert (Hpos : (0 < balance (ss m))%Z) by (unfold IMAGE_GENERATION_COST in *; lia).
  destruct (balance_positive _ Hpos) as (d0 & Hd0 & Htokens).
  subst m'. revert Hbalance Htokens. clear Hpos. generalize (balance (ss m)) as b.
  intros b Hbalance Htokens.
  pattern (step E GenerateVisualExplanation m); apply wp_step.
  on_tutor_page m E.
  assert (Hlt : (b <? IMAGE_GENERATION_COST)%Z = false) by (apply Z.ltb_ge; lia).
  symex.
  unfold balance; settle; rewrite ?tokens_with_tokens.
  repeat apply conj; try reflexivity.
  - eexists; split; [reflexivity|].
    by rewrite tokens_to_doc, tokens_with_tokens.
  - apply stored_balance_set_merge.
    by rewrite tokens_to_doc, tokens_with_tokens.
Qed.

(** C8, as amended.  "Change Study Subject" in the Active state empties the
    session transcript, whatever its length, clears the current study
    subject and resets the context-loaded flag.  The stored user records,
    and the transcript held by the loaded user data, are not modified. *)
Theorem change_subject_clears_session_transcript E m :
  tutor_ready E (ss m) = true ->
  subject_active (ss m) = true ->
  let m' := step E ChangeStudySubject m in
  fst (run E ChangeStudySubject m) = Sig SRerun /\
  chat_history (ss m') = [] /\
  current_study_subject (ss m') = None /\
  subject_context_loaded (ss m') = false /\
  db m' = db m /\
  (user_data (ss m') ≫= dict_history (ss m')) =
    (user_data (ss m) ≫= dict_history (ss m)).
Proof.
  intros Hready Hactive m'. subst m'. unfold step.
  pattern (fst (run E ChangeStudySubject m)), (snd (run E ChangeStudySubject m)).
  apply wp_run.
  on_tutor_page m E. symex.
  repeat apply conj; try reflexivity.
  unfold dict_history, unshare; simpl.
  destruct ud as [? ? ? ? ? ? ? ? [[|l]|]]; reflexivity.
Qed.

Lemma logout_run E m :
  logged_in (ss m) = true ->
  fst (run E SidebarLogout m) = Sig SRerun /\
  ss (step E SidebarLogout m) =
    Session (env_firebase_key E) (env_openai_key E) false login None None []
      (current_study_subject (ss m)) (subject_context_loaded (ss m))
      (active_syllabus (ss m)) (active_subject_context (ss m))
      (generating_image (ss m)) /\
  db (step E SidebarLogout m) = db m.
Proof.
  intros Hin. unfold step.
  pattern (fst (run E SidebarLogout m)), (snd (run E SidebarLogout m)).
  apply wp_run.
  destruct m as [[fb oa li pg un ud ch subj loaded syl ctx gi] d o];
    destruct E as [fbk oak pdf txt chat img speech hashpw checkpw].
  simpl in Hin; subst li.
  symex; repeat apply conj; reflexivity.
Qed.

Lemma login_run E m name password record :
  env_firebase_key E = true ->
  logged_in (ss m) = false ->
  current_page (ss m) = login ->
  db_get name (db m) = Some record ->
  env_checkpw E password (password_hash record) = true ->
  fst (run E (LoginSubmit name password) m) = Sig SRerun /\
  ss (step E (LoginSubmit name password) m) =
    Session true (env_openai_key E) true tutor (Some name)
      (Some (to_dict record)) (default [] (chat_history_field record))
      (current_study_subject (ss m)) (subject_context_loaded (ss m))
      (active_syllabus (ss m)) (active_subject_context (ss m))
      (generating_image (ss m)) /\
  db (step E (LoginSubmit name password) m) = db m.
Proof.
  intros Hkey Hout Hpage Hrecord Hpw. unfold step.
  pattern (fst (run E (LoginSubmit name password) m)),
    (snd (run E (LoginSubmit name password) m)).
  apply wp_run.
  destruct m as [[fb oa li pg un ud ch subj loaded syl ctx gi] d o];
    destruct E as [fbk oak pdf txt chat img speech hashpw checkpw].
  simpl in *; subst.
  symex; repeat apply conj; reflexivity.
Qed.

(** C9.  Logout clears the login flag, the username, the loaded user data
    and the transcript, and goes to the login page; the current study
    subject, the loaded syllabus and context and the context-loaded flag are
    kept.  A login that follows in the same browser session therefore
    resumes with the previous user's subject active and its context
    loaded. *)
Theorem logout_keeps_subject E m :
  logged_in (ss m) = true ->
  let m1 := step E SidebarLogout m in
  fst (run E SidebarLogout m) = Sig SRerun /\
  logged_in (ss m1) = false /\
  username (ss m1) = None /\
  user_data (ss m1) = None /\
  chat_history (ss m1) = [] /\
  current_page (ss m1) = login /\
  current_study_subject (ss m1) = current_study_subject (ss m) /\
  active_syllabus (ss m1) = active_syllabus (ss m) /\
  active_subject_context (ss m1) = active_subject_context (ss m) /\
  subject_context_loaded (ss m1) = subject_context_loaded (ss m) /\
  forall E' name password record,
    env_firebase_key E' = true ->
    db_get name (db m1) = Some record ->
    env_checkpw E' password (password_hash record) = true ->
    let m2 := step E' (LoginSubmit name password) m1 in
    logged_in (ss m2) = true /\
    username (ss m2) = Some name /\
    current_page (ss m2) = tutor /\
    chat_history (ss m2) = default [] (chat_history_field record) /\
    current_study_subject (ss m2) = current_study_subject (ss m) /\
    active_syllabus (ss m2) = active_syllabus (ss m) /\
    active_subject_context (ss m2) = active_subject_context (ss m) /\
    subject_context_loaded (ss m2) = subject_context_loaded (ss m) /\
    subject_active (ss m2) = subject_active (ss m).
Proof.
  intros Hin m1. destruct (logout_run E m Hin) as (Hrun & Hss & Hdb).
  subst m1. rewrite Hss. repeat apply conj; try reflexivity; try exact Hrun.
  intros E' name password record Hkey Hrecord Hpw m2.
  destruct (login_run E' (step E SidebarLogout m) name password record)
    as (_ & Hss2 & _); rewrite ?Hss; auto.
  subst m2. rewrite Hss2, Hss. repeat apply conj; reflexivity.
Qed.

(** X10.  Without tokens a send is refused: an error is shown, and the
    session and the store are untouched; no API is called. *)
Lemma send_refused_without_tokens E m user_input :
  tutor_ready E (ss m) = true ->
  subject_active (ss m) = true ->
  truthy user_input = true ->
  (balance (ss m) <= 0)%Z ->
  let m' := step E (SendToTutor user_input) m in
  ss m' = ss m /\ db m' = db m /\
  out m' = [st_error "You have no tokens left! Please contact support for more."].
Proof.
  intros Hready Hactive Hinput Hbalance m'. subst m'.
  pattern (step E (SendToTutor user_input) m); apply wp_step.
  on_tutor_page m E.
  assert (Hle : (default 0 (tokens ud) <=? 0)%Z = true) by (apply Z.leb_le; exact Hbalance).
  unfold default in Hle.
  destruct (tokens ud) as [t|] eqn:Htokens; cbn [from_option id] in Hle.
  all: symex; repeat apply conj; reflexivity.
Qed.

(** X11.  Below the cost of 50 tokens an illustration is refused: the
    session and the store are untouched and no API is called. *)
Lemma visual_refused_below_cost E m :
  tutor_ready E (ss m) = true ->
  subject_active (ss m) = true ->
  generating_image (ss m) = false ->
  (balance (ss m) < IMAGE_GENERATION_COST)%Z ->
  let m' := step E GenerateVisualExplanation m in
  ss m' = ss m /\ db m' = db m /\ List.filter is_api_call (out m') = [].
Proof.
  intros Hready Hactive Hgen Hbalance m'. subst m'.
  pattern (step E GenerateVisualExplanation m); apply wp_step.
  on_tutor_page m E.
  assert (Hlt : (default 0 (tokens ud) <? IMAGE_GENERATION_COST)%Z = true)
    by (apply Z.ltb_lt; exact Hbalance).
  unfold default in Hlt.
  destruct (tokens ud) as [t|] eqn:Htokens; cbn [from_option id] in Hlt.
  all: symex; repeat apply conj; reflexivity.
Qed.

(** ** The balance never goes negative *)

Lemma record_nonneg_with_tokens {H} t (d : user_record H) :
  (0 <= t)%Z -> record_nonneg (with_tokens (Some t) d).
Proof.
  intros Ht t' Heq. rewrite tokens_with_tokens in Heq.
  injection Heq as Heq. lia.
Qed.

Lemma record_nonneg_with_history {H H'} (h : option H') (d : user_record H) :
  record_nonneg d -> record_nonneg (with_history h d).
Proof. intros Hd t. rewrite tokens_with_history. apply Hd. Qed.

Lemma record_nonneg_to_doc s d : record_nonneg d -> record_nonneg (to_doc s d).
Proof. apply record_nonneg_with_history. Qed.

Lemma record_nonneg_to_dict d : record_nonneg d -> record_nonneg (to_dict d).
Proof. apply record_nonneg_with_history. Qed.

Lemma record_nonneg_unshare old d : record_nonneg d -> record_nonneg (unshare old d).
Proof.
  intros Hd. unfold unshare. destruct (chat_history_field d) as [[|]|]; auto.
  by apply record_nonneg_with_history.
Qed.

Lemma record_nonneg_with_learning_preferences {H} p (d : user_record H) :
  record_nonneg d -> record_nonneg (with_learning_preferences p d).
Proof. by destruct d. Qed.

Lemma record_nonneg_with_subjects {H} l (d : user_record H) :
  record_nonneg d -> record_nonneg (with_subjects l d).
Proof. by destruct d. Qed.

Lemma record_nonneg_merge_doc data old :
  record_nonneg data -> (forall r, old = Some r -> record_nonneg r) ->
  record_nonneg (merge_doc data old).
Proof.
  intros Hdata Hold. destruct old as [r|]; [|exact Hdata].
  specialize (Hold r eq_refl). intros t.
  destruct data as [? ? ? ? ? [td|] ? ? ?], r as [? ? ? ? ? tr ? ? ?];
    unfold record_nonneg in *; simpl in *; intros Heq.
  - by apply Hdata.
  - by apply Hold.
Qed.

Lemma db_nonneg_set name r d :
  db_nonneg d -> record_nonneg r -> db_nonneg (db_set name r d).
Proof.
  intros Hd Hr name' r'. unfold db_get, db_set.
  destruct (decide (name = name')) as [->|Hne].
  - rewrite lookup_insert_eq. by intros [= <-].
  - rewrite lookup_insert_ne by done. apply Hd.
Qed.

Lemma db_nonneg_set_merge name r d :
  db_nonneg d -> record_nonneg r -> db_nonneg (db_set_merge name r d).
Proof.
  intros Hd Hr. apply db_nonneg_set; [done|].
  apply record_nonneg_merge_doc; [done|]. intros r'. apply Hd.
Qed.

Lemma record_nonneg_new {H} fn ln em un ph lp sj (hi : option H) :
  record_nonneg (UserRecord fn ln em un ph (Some initial_tokens) lp sj hi).
Proof. intros t [= <-]. unfold initial_tokens. lia. Qed.

Ltac arith_facts :=
  repeat match goal with
    | H : (_ <=? _)%Z = false |- _ => apply Z.leb_gt in H
    | H : (_ <? _)%Z = false |- _ => apply Z.ltb_ge in H
    end;
  unfold IMAGE_GENERATION_COST in *.

Ltac record_ok Hdb :=
  repeat first
    [ assumption
    | apply record_nonneg_new
    | apply record_nonneg_with_tokens; lia
    | apply record_nonneg_with_history
    | apply record_nonneg_to_doc
    | apply record_nonneg_to_dict
    | apply record_nonneg_unshare
    | apply record_nonneg_with_learning_preferences
    | apply record_nonneg_with_subjects
    | apply record_nonneg_merge_doc; [|intros ?; apply Hdb]
    | eapply Hdb; eassumption ].

Ltac db_ok Hdb :=
  repeat first
    [ assumption
    | apply db_nonneg_set_merge; [|record_ok Hdb]
    | apply db_nonneg_set; [|record_ok Hdb] ].

Ltac settle_leaf Hdb :=
  split; cbn [ss db user_data];
  [ intros ? [= <-]; record_ok Hdb | fold db_nonneg; db_ok Hdb ].

Lemma step_balance_nonneg E ev m : balance_nonneg m -> balance_nonneg (step E ev m).
Proof.
  intros Hinv. pattern (step E ev m); apply wp_step.
  destruct m as [[fb oa li pg un ud ch subj loaded syl ctx gi] d o];
    destruct E as [fbk oak pdf txt chat img speech hashpw checkpw].
  destruct Hinv as [Hud Hdb]. simpl in Hud, Hdb. fold (db_nonneg d) in Hdb.
  destruct ud as [d0|].
  - specialize (Hud d0 eq_refl).
    destruct ev; symex.
    all: arith_facts.
    all: settle_leaf Hdb.
  - clear Hud.
    destruct ev; symex.
    all: arith_facts.
    all: settle_leaf Hdb.
Qed.

(** C6.  From a state in which no token balance is negative, neither in
    the session nor in a stored user record, no sequence of runs, whatever
    the widgets operated and whatever the outside world answers, makes a
    balance negative. *)
Theorem balance_never_negative l m : balance_nonneg m -> balance_nonneg (steps l m).
Proof.
  revert m. induction l as [|[E ev] l IH]; intros m Hm; [exact Hm|].
  simpl. by apply IH, step_balance_nonneg.
Qed.

(** C3.  Whenever a send made a chat-completion call that raised, the token
    balance after the run equals the balance before it: the decrement made
    before the call is undone.  The stored balance is restored as well. *)
Theorem failed_send_restores_balance E m user_input messages max_tokens e :
  let m' := step E (SendToTutor user_input) m in
  In (chat_completions_create messages max_tokens) (out m') ->
  env_chat E messages = ChatRaises e ->
  balance (ss m') = balance (ss m) /\
  chat_calls (out m') = 1%nat /\
  (forall name, username (ss m') = Some name -> truthy name = true ->
     stored_balance name (db m') = Some (balance (ss m))).
Proof.
  intros m'. subst m'.
  pattern (step E (SendToTutor user_input) m); apply wp_step.
  destruct m as [[fb oa li pg un ud ch subj loaded syl ctx gi] d o];
    destruct E as [fbk oak pdf txt chat img speech hashpw checkpw].
  cbn [env_chat].
  symex.
  all: cbn [In]; intros Hin Hraises.
  all: repeat match goal with
         | H : _ \/ _ |- _ => destruct H
         | H : False |- _ => destruct H
         | H : _ = chat_completions_create _ _ |- _ =>
             first [discriminate H | injection H as <- <-]
         end.
  all: try congruence.
  all: arith_facts; unfold balance; cbn [user_data]; rewrite ?tokens_with_tokens.
  all: repeat match goal with H : tokens _ = _ |- _ => rewrite H end;
    cbn [from_option id].
  all: replace (z + -1 + 1)%Z with z by lia.
  all: (split; [reflexivity | split; [reflexivity|]]).
  all: intros name [= <-] Hname; try congruence.
  all: apply stored_balance_set_merge; by rewrite tokens_to_doc, tokens_with_tokens.
Qed.

(** X16.  When the chat-completion call that condenses the image prompt
    raises, the 50 tokens deducted up front are given back: the balance
    after the request equals the balance before it. *)
Lemma illustration_prompt_failure_refunded E m e :
  tutor_ready E (ss m) = true ->
  subject_active (ss m) = true ->
  generating_image (ss m) = false ->
  (IMAGE_GENERATION_COST <= balance (ss m))%Z ->
  truthy (last_tutor_message (chat_history (ss m))) = true ->
  env_chat E
    (image_prompt_generation_messages (last_tutor_message (chat_history (ss m)))) =
    ChatRaises e ->
  balance (ss (step E GenerateVisualExplanation m)) = balance (ss m).
Proof.
  intros Hready Hactive Hgen Hbalance Hlast Hchat.
  assert (Hpos : (0 < balance (ss m))%Z) by (unfold IMAGE_GENERATION_COST in *; lia).
  destruct (balance_positive _ Hpos) as (d0 & Hd0 & Htokens).
  revert Hbalance Htokens. clear Hpos. generalize (balance (ss m)) as b.
  intros b Hbalance Htokens.
  pattern (step E GenerateVisualExplanation m); apply wp_step.
  on_tutor_page m E.
  assert (Hlt : (b <? IMAGE_GENERATION_COST)%Z = false) by (apply Z.ltb_ge; lia).
  symex.
  all: unfold balance; settle; rewrite ?tokens_with_tokens; cbn [from_option id].
  all: unfold IMAGE_GENERATION_COST; lia.
Qed.

Lemma illustration_charged_after_prompt E m prompt :
  tutor_ready E (ss m) = true ->
  subject_active (ss m) = true ->
  generating_image (ss m) = false ->
  (IMAGE_GENERATION_COST <= balance (ss m))%Z ->
  truthy (last_tutor_message (chat_history (ss m))) = true ->
  env_chat E
    (image_prompt_generation_messages (last_tutor_message (chat_history (ss m)))) =
    ChatOk prompt ->
  truthy prompt = true ->
  let m' := step E GenerateVisualExplanation m in
  balance (ss m') = (balance (ss m) - IMAGE_GENERATION_COST)%Z /\
  List.filter is_image_call (out m') = [].
Proof.
  intros Hready Hactive Hgen Hbalance Hlast Hchat Hprompt m'. subst m'.
  assert (Hpos : (0 < balance (ss m))%Z) by (unfold IMAGE_GENERATION_COST in *; lia).
  destruct (balance_positive _ Hpos) as (d0 & Hd0 & Htokens).
  revert Hbalance Htokens. clear Hpos. generalize (balance (ss m)) as b.
  intros b Hbalance Htokens.
  pattern (step E GenerateVisualExplanation m); apply wp_step.
  on_tutor_page m E.
  assert (Hlt : (b <? IMAGE_GENERATION_COST)%Z = false) by (apply Z.ltb_ge; lia).
  symex.
  all: unfold balance; settle; rewrite ?tokens_with_tokens; cbn [from_option id].
  all: split; reflexivity.
Qed.

Lemma show_generated_image_no_refund E prompt m :
  (forall url, env_image E prompt = ImageUrl url -> truthy url = false) ->
  let '(r, m') := show_generated_image E prompt m in
  r = Val tt /\ balance (ss m') = balance (ss m) /\ db m' = db m /\
  In (st_error "Failed to generate visual explanation.") (out m').
Proof.
  intros Hfail.
  change (wp (show_generated_image E prompt) m
            (fun r m' => r = Val tt /\ balance (ss m') = balance (ss m) /\
                         db m' = db m /\
                         In (st_error "Failed to generate visual explanation.") (out m'))).
  destruct m as [[fb oa li pg un ud ch subj loaded syl ctx gi] d o];
    destruct E as [fbk oak pdf txt chat img speech hashpw checkpw].
  cbn [env_image] in Hfail.
  symex.
  all: try match goal with
         | H' : truthy ?u = true |- _ =>
             rewrite (Hfail u eq_refl) in H'; discriminate H'
         end.
  all: repeat apply conj; try reflexivity.
  all: apply in_or_app; right; left; reflexivity.
Qed.

(** C2, the defect.  alice, with 1000 tokens, asks for an illustration; the
    prompt is condensed, and the image API would raise.  The run ends at
    [st.rerun()] before the image call, 50 tokens lower, with no image in
    the transcript; the statements after the rerun, run on their own, report
    the failure and give nothing back either. *)
Theorem failed_illustration_not_refunded :
  let m := alice_studying in
  let E := env_image_down in
  let m' := step E GenerateVisualExplanation m in
  (IMAGE_GENERATION_COST <= balance (ss m))%Z /\
  env_image E visual_prompt = ImageRaises (APIError "quota exceeded") /\
  fst (run E GenerateVisualExplanation m) = Sig SRerun /\
  List.filter is_image_call (out m') = [] /\
  List.filter (has_role image) (chat_history (ss m')) = [] /\
  balance (ss m') = (balance (ss m) - IMAGE_GENERATION_COST)%Z /\
  stored_balance "alice" (db m') = Some (balance (ss m) - IMAGE_GENERATION_COST)%Z /\
  balance (ss (snd (show_generated_image E visual_prompt m'))) =
    (balance (ss m) - IMAGE_GENERATION_COST)%Z.
Proof.
  vm_compute. repeat split; discriminate.
Qed.

Lemma headed_by_system_prompt_role s subject :
  headed_by_system_prompt s subject ->
  exists msg rest, chat_history s = msg :: rest /\ msg_role msg = system.
Proof. intros (grade & rest & ->). eauto. Qed.

(** C7, the defect.  alice studies Mathematics and logs out; bob logs in in
    the same browser session and sends a message.  Mathematics is still the
    active subject, and bob's transcript starts with his user message: it
    has no system prompt. *)
Theorem transcript_without_system_prompt :
  tutor_ready demo_env (ss bob_after_alice) = true /\
  username (ss bob_after_alice) = Some "bob" /\
  subject_active (ss bob_after_alice) = true /\
  current_study_subject (ss bob_sends) = Some "Mathematics" /\
  chat_history (ss bob_sends) = [Msg user "hi"; Msg assistant "2+2 = 4"] /\
  ~ headed_by_system_prompt (ss bob_sends) "Mathematics".
Proof.
  repeat apply conj; try (vm_compute; reflexivity).
  intros H. apply headed_by_system_prompt_role in H.
  destruct H as (msg & rest & Hh & Hrole).
  vm_compute in Hh. injection Hh as <- _. discriminate Hrole.
Qed.

(** C1 as stated fails: with the syllabus file missing, the start attempt
    changes [current_study_subject] from [None] to the selected subject. *)
Lemma missing_file_changes_session :
  tutor_ready env_without_syllabus (ss alice_logged_in) = true /\
  subject_active (ss alice_logged_in) = false /\
  both_files env_without_syllabus "Mathematics" = None /\
  current_study_subject (ss alice_logged_in) = None /\
  current_study_subject (ss alice_missing_syllabus) = Some "Mathematics" /\
  ss alice_missing_syllabus <> ss alice_logged_in.
Proof.
  repeat apply conj; try (vm_compute; reflexivity).
  intros H. apply (f_equal current_study_subject) in H.
  vm_compute in H. discriminate H.
Qed.

(** C8 as stated fails: after alice changes subject, her stored record
    still holds the two-entry transcript of the Mathematics session. *)
Lemma stored_transcript_survives_change :
  tutor_ready demo_env (ss alice_studying) = true /\
  subject_active (ss alice_studying) = true /\
  chat_history (ss alice_changes_subject) = [] /\
  stored_history "alice" (db alice_changes_subject) =
    Some (chat_history (ss alice_studying)) /\
  stored_history "alice" (db alice_changes_subject) <> Some [].
Proof.
  repeat apply conj; try (vm_compute; reflexivity).
  vm_compute. discriminate.
Qed.

Lemma missing_file_sets_subject_only_witness :
  exists text,
    run env_without_syllabus (StartStudySession "Mathematics" "High School")
      alice_logged_in =
      (Sig SStop,
       Machine (set_current_study_subject (Some "Mathematics") (ss alice_logged_in))
         (db alice_logged_in) [st_error text]).
Proof.
  apply missing_file_sets_subject_only; vm_compute; (reflexivity || discriminate).
Defined.

Lemma start_study_session_seeds_transcript_witness :
  length (chat_history (ss alice_studying)) = 2%nat /\
  map msg_role (chat_history (ss alice_studying)) = [system; assistant].
Proof.
  destruct (start_study_session_seeds_transcript demo_env alice_logged_in
              "Mathematics" "High School" "Algebra. Geometry."
              "Use worked examples.")
    as (Hh & _); try (vm_compute; (reflexivity || discriminate)).
  unfold alice_studying. rewrite Hh. split; reflexivity.
Defined.

Lemma successful_send_witness :
  balance (ss (step demo_env (SendToTutor "What is 2+2?") alice_last_token)) = 0%Z /\
  length (chat_history
            (ss (step demo_env (SendToTutor "What is 2+2?") alice_last_token))) = 4%nat.
Proof.
  destruct (successful_send demo_env alice_last_token "What is 2+2?" "2+2 = 4")
    as (_ & _ & _ & H); try (vm_compute; reflexivity).
  apply H; vm_compute; reflexivity.
Defined.

Lemma failed_send_restores_balance_witness :
  balance (ss (step env_chat_down (SendToTutor "What is 2+2?") alice_studying)) =
    balance (ss alice_studying).
Proof.
  eapply (failed_send_restores_balance env_chat_down alice_studying
            "What is 2+2?").
  - vm_compute. right. right. left. reflexivity.
  - vm_compute. reflexivity.
Defined.

Lemma balance_never_negative_witness :
  balance_nonneg
    (steps (with_env demo_env
              [RegisterHere;
               RegisterSubmit "Alice" "Ames" "alice" "alice@example.org" "pw1" "pw1";
               LoginSubmit "alice" "pw1";
               StartStudySession "Mathematics" "High School";
               SendToTutor "What is 2+2?";
               GenerateVisualExplanation])
       (initial_machine ∅)).
Proof.
  apply balance_never_negative. split.
  - intros d H. vm_compute in H. discriminate H.
  - intros name d H. unfold db_get in H. simpl in H.
    rewrite lookup_empty in H. discriminate H.
Defined.

Lemma logout_keeps_subject_witness :
  current_study_subject (ss (step demo_env SidebarLogout alice_studying)) =
    Some "Mathematics" /\
  subject_active (ss bob_after_alice) = true.
Proof.
  destruct (logout_keeps_subject demo_env alice_studying)
    as (_ & _ & _ & _ & _ & _ & Hsubject & _ & _ & _ & Hlogin);
    [vm_compute; reflexivity|].
  split.
  - rewrite Hsubject. vm_compute. reflexivity.
  - vm_compute. reflexivity.
Defined.

Lemma visual_without_tutor_message_witness :
  balance (ss (step demo_env GenerateVisualExplanation bob_after_alice)) = 950%Z.
Proof.
  destruct (visual_without_tutor_message demo_env bob_after_alice "bob")
    as (_ & _ & _ & H).
  1-7: vm_compute; first [reflexivity | discriminate | constructor].
  rewrite H. vm_compute. reflexivity.
Defined.

Lemma change_subject_clears_session_transcript_witness :
  chat_history (ss alice_changes_subject) = [] /\
  db alice_changes_subject = db alice_studying.
Proof.
  destruct (change_subject_clears_session_transcript demo_env alice_studying)
    as (_ & Hh & _ & _ & Hdb & _); try (vm_compute; reflexivity).
  split; assumption.
Defined.

(** * Further properties of the application *)

Ltac whnf ::=
  lazy head beta iota zeta delta
    [wp run initialize main login_page register_page profile_page tutor_page
     start_study_session send_to_tutor generate_visual show_generated_image
     generate_image chat_completion text_to_speech read_pdf_text read_text_file
     update_user_data save_chat_history adjust_tokens the_user_data
     mutate_user_data bind ret call halt py_return st_stop st_rerun raise
     try_except try_finally get_session modify_session get_db modify_db emit
     when negb orb andb is_none load_user_data].

Ltac open_state m E :=
  destruct m as [[fb oa li pg un ud ch subj loaded syl ctx gi] d o];
  destruct E as [fbk oak pdf txt chat img speech hashpw checkpw];
  cbv beta iota delta
    [configured tutor_ready profile_ready subject_active valid_registration
     credentials_ok both_files ss db out
     firebase_initialized openai_initialized logged_in current_page username
     user_data chat_history current_study_subject subject_context_loaded
     active_syllabus active_subject_context generating_image
     env_firebase_key env_openai_key env_pdf env_txt env_chat env_image
     env_speech env_hashpw env_checkpw] in *;
  split_andb; subst;
  try (destruct ud as [ud|]; [|discriminate]);
  try (destruct pg; try discriminate).

Lemma run_by_wp E ev m r0 m0 :
  wp (fun x => run E ev x) m (fun r m' => (r, m') = (r0, m0)) ->
  run E ev m = (r0, m0).
Proof. unfold wp. destruct (run E ev m). auto. Qed.

(** ** Registration *)

(** X1.  Registration with a taken username: an error, and nothing changes. *)
Theorem duplicate_registration_rejected E m first last name mail password confirm r :
  configured E (ss m) = true ->
  current_page (ss m) = register ->
  valid_registration first last name mail password confirm = true ->
  db_get name (db m) = Some r ->
  run E (RegisterSubmit first last name mail password confirm) m =
    (Val tt,
     Machine (ss m) (db m)
       [st_error "Username already exists. Please choose a different one."]).
Proof.
  intros Hconf Hpage Hvalid Hdup. apply run_by_wp.
  open_state m E. symex; reflexivity.
Qed.




(** ** Login *)



(** ** Profile *)

Lemma subjects_merge_doc s l (d0 : user_dict) old :
  subjects (merge_doc (to_doc s (with_subjects l d0)) old) = Some l.
Proof. destruct d0, old as [[]|]; reflexivity. Qed.

Lemma preferences_merge_doc s p (d0 : user_dict) old :
  learning_preferences (merge_doc (to_doc s (with_learning_preferences p d0)) old) =
    Some p.
Proof. destruct d0, old as [[]|]; reflexivity. Qed.

Lemma tokens_with_subjects {H} l (d : user_record H) :
  tokens (with_subjects l d) = tokens d.
Proof. by destruct d. Qed.

Lemma tokens_with_learning_preferences {H} p (d : user_record H) :
  tokens (with_learning_preferences p d) = tokens d.
Proof. by destruct d. Qed.

(** X6.  More than five subjects are refused: an error, and neither the session
    nor the store changes. *)
Theorem too_many_subjects_rejected E m selected :
  profile_ready E (ss m) = true ->
  (5 < length selected)%nat ->
  run E (UpdateSubjects selected) m =
    (Val tt,
     Machine (ss m) (db m) [st_error "You can select a maximum of 5 subjects."]).
Proof.
  intros Hready Hlen. apply run_by_wp.
  assert (Hgt : (5 <? Z.of_nat (length selected))%Z = true) by (apply Z.ltb_lt; lia).
  open_state m E. symex; reflexivity.
Qed.

(** X7.  Up to five subjects are accepted: the list replaces the one in the
    loaded user data and in the stored record, and the balance is
    untouched. *)
Theorem subjects_updated E m selected name :
  profile_ready E (ss m) = true ->
  (length selected <= 5)%nat ->
  username (ss m) = Some name ->
  truthy name = true ->
  let m' := step E (UpdateSubjects selected) m in
  (user_data (ss m') ≫= subjects) = Some selected /\
  (db_get name (db m') ≫= subjects) = Some selected /\
  balance (ss m') = balance (ss m) /\
  (forall other, other <> name -> db_get other (db m') = db_get other (db m)) /\
  In (st_success "Subjects updated successfully!") (out m').
Proof.
  intros Hready Hlen Hname Htruthy m'. subst m'.
  pattern (step E (UpdateSubjects selected) m); apply wp_step.
  assert (Hle : (5 <? Z.of_nat (length selected))%Z = false) by (apply Z.ltb_ge; lia).
  open_state m E. symex.
  unfold balance; settle; rewrite tokens_with_subjects.
  repeat apply conj; try reflexivity.
  - by destruct ud.
  - rewrite db_get_set_merge. cbn [mbind option_bind]. apply subjects_merge_doc.
  - intros other Hother. apply db_get_set_merge_ne. congruence.
  - right. left. reflexivity.
Qed.

(** X8.  Updating the learning preferences replaces them in the loaded user data
    and in the stored record; the balance is untouched. *)
Theorem preferences_updated E m learning_style learning_pace difficulty_level name :
  profile_ready E (ss m) = true ->
  username (ss m) = Some name ->
  truthy name = true ->
  let m' :=
    step E (UpdatePreferences learning_style learning_pace difficulty_level) m in
  let p := Prefs learning_style learning_pace difficulty_level in
  (user_data (ss m') ≫= learning_preferences) = Some p /\
  (db_get name (db m') ≫= learning_preferences) = Some p /\
  balance (ss m') = balance (ss m) /\
  (forall other, other <> name -> db_get other (db m') = db_get other (db m)) /\
  In (st_success "Learning preferences updated successfully!") (out m').
Proof.
  intros Hready Hname Htruthy m' p. subst m' p.
  pattern (step E (UpdatePreferences learning_style learning_pace difficulty_level) m);
    apply wp_step.
  open_state m E. symex.
  unfold balance; settle; rewrite tokens_with_learning_preferences.
  repeat apply conj; try reflexivity.
  - by destruct ud.
  - rewrite db_get_set_merge. cbn [mbind option_bind]. apply preferences_merge_doc.
  - intros other Hother. apply db_get_set_merge_ne. congruence.
  - right. left. reflexivity.
Qed.

(** ** The tutor page: edge cases of send and illustration *)

(** X9.  "Send to Tutor" with an empty text area does nothing at all. *)
Theorem empty_send_ignored E m :
  tutor_ready E (ss m) = true ->
  run E (SendToTutor "") m = (Val tt, Machine (ss m) (db m) []).
Proof.
  intros Hready. apply run_by_wp.
  open_state m E. symex; reflexivity.
Qed.

Lemma history_with_history {H H'} (h : option H') (d : user_record H) :
  chat_history_field (with_history h d) = h.
Proof. by destruct d. Qed.

Lemma tokens_merge_doc data old t :
  tokens data = Some t -> tokens (merge_doc data old) = Some t.
Proof. intros Ht. destruct old as [o|], data; simpl in *; by rewrite ?Ht. Qed.

Lemma history_merge_doc data old h :
  chat_history_field data = Some h ->
  chat_history_field (merge_doc data old) = Some h.
Proof. intros Hh. destruct old as [o|], data; simpl in *; by rewrite ?Hh. Qed.

(** X17.  When the condensed image prompt comes back empty, the request ends
    with a warning; the 50 tokens already deducted are not given back and
    the transcript is unchanged. *)
Theorem empty_image_prompt_not_refunded E m :
  tutor_ready E (ss m) = true ->
  subject_active (ss m) = true ->
  generating_image (ss m) = false ->
  (IMAGE_GENERATION_COST <= balance (ss m))%Z ->
  truthy (last_tutor_message (chat_history (ss m))) = true ->
  env_chat E
    (image_prompt_generation_messages (last_tutor_message (chat_history (ss m)))) =
    ChatOk "" ->
  let m' := step E GenerateVisualExplanation m in
  fst (run E GenerateVisualExplanation m) = Val tt /\
  balance (ss m') = (balance (ss m) - IMAGE_GENERATION_COST)%Z /\
  chat_history (ss m') = chat_history (ss m) /\
  In (st_warning "Could not generate a suitable image prompt.") (out m') /\
  List.filter is_image_call (out m') = [].
Proof.
  intros Hready Hactive Hgen Hbalance Hlast Hchat m'. subst m'. unfold step.
  pattern (fst (run E GenerateVisualExplanation m)),
    (snd (run E GenerateVisualExplanation m)).
  apply wp_run.
  assert (Hpos : (0 < balance (ss m))%Z) by (unfold IMAGE_GENERATION_COST in *; lia).
  destruct (balance_positive _ Hpos) as (d0 & Hd0 & Htokens).
  revert Hbalance Htokens. clear Hpos. generalize (balance (ss m)) as b.
  intros b Hbalance Htokens.
  on_tutor_page m E.
  assert (Hlt : (b <? IMAGE_GENERATION_COST)%Z = false) by (apply Z.ltb_ge; lia).
  symex.
  all: unfold balance; settle; rewrite ?tokens_with_tokens; cbn [from_option id].
  all: repeat apply conj; try reflexivity.
  all: cbn [In]; auto.
Qed.

(** X12.  After a successful send by a user with a stored record, the store
    holds exactly the session's transcript and balance. *)
Theorem send_keeps_store_in_sync E m user_input reply name :
  tutor_ready E (ss m) = true ->
  subject_active (ss m) = true ->
  truthy user_input = true ->
  (0 < balance (ss m))%Z ->
  env_chat E (chat_history (ss m) ++ [Msg user user_input])%list = ChatOk reply ->
  username (ss m) = Some name ->
  truthy name = true ->
  let m' := step E (SendToTutor user_input) m in
  stored_history name (db m') = Some (chat_history (ss m')) /\
  stored_balance name (db m') = Some (balance (ss m')).
Proof.
  intros Hready Hactive Hinput Hbalance Hchat Hname Htruthy m'. subst m'.
  destruct (balance_positive _ Hbalance) as (d0 & Hd0 & Htokens).
  revert Hbalance Htokens. generalize (balance (ss m)) as b.
  intros b Hbalance Htokens.
  pattern (step E (SendToTutor user_input) m); apply wp_step.
  on_tutor_page m E.
  assert (Hpos : (b <=? 0)%Z = false) by (apply Z.leb_gt; lia).
  symex.
  all: unfold balance, stored_history, stored_balance; settle;
    rewrite ?db_get_set; cbn [mbind option_bind];
    rewrite ?history_with_history, ?tokens_with_history, ?tokens_with_tokens.
  all: split; [reflexivity|].
  all: cbn [from_option id]; apply tokens_merge_doc;
    by rewrite tokens_to_doc, tokens_with_tokens.
Qed.

(** X15.  A successful session start writes the two seed messages to the user's
    stored record and leaves the stored balance alone. *)
Theorem session_start_persisted E m subject grade syllabus context name r :
  tutor_ready E (ss m) = true ->
  subject_active (ss m) = false ->
  subject <> placeholder_subject ->
  both_files E subject = Some (syllabus, context) ->
  username (ss m) = Some name ->
  truthy name = true ->
  db_get name (db m) = Some r ->
  let m' := step E (StartStudySession subject grade) m in
  fst (run E (StartStudySession subject grade) m) = Sig SRerun /\
  stored_history name (db m') = Some (chat_history (ss m')) /\
  stored_balance name (db m') = tokens r /\
  user_data (ss m') ≫= tokens = user_data (ss m) ≫= tokens.
Proof.
  intros Hready Hactive Hsubject Hfiles Hname Htruthy Hdoc m'. subst m'.
  unfold step.
  pattern (fst (run E (StartStudySession subject grade) m)),
    (snd (run E (StartStudySession subject grade) m)).
  apply wp_run.
  apply String.eqb_neq in Hsubject.
  on_tutor_page m E.
  all: revert Hfiles;
    destruct (pdf (syllabus_file_path subject)) eqn:Hpdf; try discriminate;
    destruct (txt (context_file_path subject)) eqn:Htxt; try discriminate;
    intros [= -> ->].
  all: symex.
  all: unfold stored_history, stored_balance; rewrite ?db_get_set;
    cbn [mbind option_bind];
    rewrite ?history_with_history, ?tokens_with_history.
  all: repeat apply conj; try reflexivity.
  all: unfold unshare; destruct (chat_history_field ud) as [[|]|];
    rewrite ?tokens_with_history; reflexivity.
Qed.

(** X13.  A failed send gives the token back but keeps the user's message in the
    session transcript; no assistant reply is added, and the error is
    shown. *)
Theorem failed_send_keeps_user_message E m user_input e :
  tutor_ready E (ss m) = true ->
  subject_active (ss m) = true ->
  truthy user_input = true ->
  (0 < balance (ss m))%Z ->
  env_chat E (chat_history (ss m) ++ [Msg user user_input])%list = ChatRaises e ->
  let m' := step E (SendToTutor user_input) m in
  fst (run E (SendToTutor user_input) m) = Val tt /\
  chat_history (ss m') = (chat_history (ss m) ++ [Msg user user_input])%list /\
  In (st_error
        (match e with
         | APIError t => "OpenAI API error: " ++ t
         | OtherException t => "An unexpected error occurred: " ++ t
         end)) (out m').
Proof.
  intros Hready Hactive Hinput Hbalance Hchat m'. subst m'. unfold step.
  pattern (fst (run E (SendToTutor user_input) m)),
    (snd (run E (SendToTutor user_input) m)).
  apply wp_run.
  destruct (balance_positive _ Hbalance) as (d0 & Hd0 & Htokens).
  revert Hbalance Htokens. generalize (balance (ss m)) as b.
  intros b Hbalance Htokens.
  on_tutor_page m E.
  assert (Hpos : (b <=? 0)%Z = false) by (apply Z.leb_gt; lia).
  symex.
  all: repeat apply conj; try reflexivity.
  all: cbn [In]; auto 10.
Qed.

(** X14.  The roll-back of a failed send writes the whole user data back.  When
    the session transcript was started afresh after login, the user data
    still holds the transcript read at login, and that one ends up in the
    store: the stored transcript then differs from the session's. *)
Theorem failed_send_stores_loaded_transcript E m user_input e name loaded_history :
  tutor_ready E (ss m) = true ->
  subject_active (ss m) = true ->
  truthy user_input = true ->
  (0 < balance (ss m))%Z ->
  env_chat E (chat_history (ss m) ++ [Msg user user_input])%list = ChatRaises e ->
  username (ss m) = Some name ->
  truthy name = true ->
  user_data (ss m) ≫= chat_history_field = Some (HistOwn loaded_history) ->
  let m' := step E (SendToTutor user_input) m in
  stored_history name (db m') = Some loaded_history /\
  chat_history (ss m') = (chat_history (ss m) ++ [Msg user user_input])%list.
Proof.
  intros Hready Hactive Hinput Hbalance Hchat Hname Htruthy Hown m'. subst m'.
  destruct (balance_positive _ Hbalance) as (d0 & Hd0 & Htokens).
  rewrite Hd0 in Hown. cbn [mbind option_bind] in Hown.
  revert Hbalance Htokens. generalize (balance (ss m)) as b.
  intros b Hbalance Htokens.
  pattern (step E (SendToTutor user_input) m); apply wp_step.
  on_tutor_page m E.
  assert (Hpos : (b <=? 0)%Z = false) by (apply Z.leb_gt; lia).
  symex.
  split; [|reflexivity].
  unfold stored_history. rewrite db_get_set_merge. cbn [mbind option_bind].
  apply history_merge_doc.
  destruct d0; cbn in *. by rewrite Hown.
Qed.

(** ** Helper functions *)

(** X19.  [generate_image] always comes back with [generating_image] reset and
    never raises; it touches nothing else, and it yields a URL exactly when
    the image API returned a non-empty one. *)
Theorem generate_image_contained E prompt m :
  let '(r, m') := generate_image E prompt m in
  generating_image (ss m') = false /\
  ss m' = set_generating_image false (ss m) /\
  db m' = db m /\
  (exists v, r = Val v /\
     forall url, v = Some url <->
                 (env_image E prompt = ImageUrl url /\ truthy url = true)).
Proof.
  change (wp (generate_image E prompt) m
            (fun r m' =>
               generating_image (ss m') = false /\
               ss m' = set_generating_image false (ss m) /\
               db m' = db m /\
               (exists v, r = Val v /\
                  forall url, v = Some url <->
                    (env_image E prompt = ImageUrl url /\ truthy url = true)))).
  destruct m as [[fb oa li pg un ud ch subj loaded syl ctx gi] d o];
    destruct E as [fbk oak pdf txt chat img speech hashpw checkpw].
  cbn [env_image].
  destruct (img prompt) as [url| |e] eqn:Himg.
  all: symex.
  all: repeat apply conj; try reflexivity.
  all: eexists; split; [reflexivity|].
  all: intros url'; split; [intros [= <-] | intros [Hurl Ht]]; try discriminate;
    try (injection Hurl as <-); try congruence; auto.
Qed.

Lemma replace_char_absent a b s :
  a <> b -> ~ In a (chars (replace_char a b s)).
Proof.
  intros Hab. induction s as [|c s IH]; simpl; [tauto|].
  intros [Hc|Hin]; [|tauto].
  destruct (Ascii.eqb c a) eqn:Heq; [congruence|].
  apply Ascii.eqb_neq in Heq. congruence.
Qed.

Lemma replace_char_keeps_absent a b c s :
  c <> b -> ~ In c (chars s) -> ~ In c (chars (replace_char a b s)).
Proof.
  intros Hcb. induction s as [|x s IH]; simpl; [tauto|].
  intros Hnot [Hx|Hin]; [|tauto].
  destruct (Ascii.eqb x a); [congruence|]. tauto.
Qed.

Lemma replace_char_length a b s :
  String.length (replace_char a b s) = String.length s.
Proof. induction s as [|c s IH]; simpl; congruence. Qed.

(** X21.  The file name derived from a subject has the subject's length and
    contains neither a space nor a slash, so both context files lie
    directly in the [subject_context] directory. *)
Theorem subject_file_name_safe subject :
  String.length (subject_file_name subject) = String.length subject /\
  ~ In " "%char (chars (subject_file_name subject)) /\
  ~ In "/"%char (chars (subject_file_name subject)).
Proof.
  unfold subject_file_name. repeat apply conj.
  - by rewrite !replace_char_length.
  - apply replace_char_keeps_absent; [discriminate|].
    apply replace_char_absent. discriminate.
  - apply replace_char_absent. discriminate.
Qed.

Lemma first_assistant_skip l l' :
  Forall (fun msg => msg_role msg <> assistant) l ->
  first_assistant (l ++ l') = first_assistant l'.
Proof.
  induction 1 as [|msg l Hmsg _ IH]; [reflexivity|].
  simpl. destruct (msg_role msg); simpl; congruence.
Qed.

(** X20.  The text an illustration is drawn from is the content of the last
    assistant message of the transcript, whatever follows it. *)
Theorem last_tutor_message_is_last before content after :
  Forall (fun msg => msg_role msg <> assistant) after ->
  last_tutor_message (before ++ Msg assistant content :: after) = content.
Proof.
  intros Hafter. unfold last_tutor_message.
  rewrite rev_app_distr. simpl. rewrite <- app_assoc.
  rewrite first_assistant_skip by (by apply List.Forall_rev). reflexivity.
Qed.

Lemma merge_doc_same s (r : doc) :
  chat_history s = default [] (chat_history_field r) ->
  merge_doc (to_doc s (to_dict r)) (Some r) = r.
Proof.
  intros Hh. destruct r as [? ? ? ? ? tk lp sj [h|]], s; simpl in *.
  - subst. by destruct tk, lp, sj.
  - by destruct tk, lp, sj.
Qed.

(** X22.  Loading a user's record and writing it back unchanged leaves the store
    as it was. *)
Theorem load_then_update_roundtrip m name r :
  firebase_initialized (ss m) = true ->
  username (ss m) = Some name ->
  truthy name = true ->
  db_get name (db m) = Some r ->
  let '(res, m') :=
    (load_user_data name ;;;
     let* user_data := the_user_data in update_user_data user_data) m in
  res = Val true /\ db m' = db m /\
  user_data (ss m') = Some (to_dict r) /\
  chat_history (ss m') = default [] (chat_history_field r).
Proof.
  intros Hfb Hname Htruthy Hdoc.
  change (wp (load_user_data name ;;;
              let* user_data := the_user_data in update_user_data user_data) m
            (fun res m' =>
               res = Val true /\ db m' = db m /\
               user_data (ss m') = Some (to_dict r) /\
               chat_history (ss m') = default [] (chat_history_field r))).
  destruct m as [[fb oa li pg un ud ch subj loaded syl ctx gi] d o].
  cbn [ss db firebase_initialized username] in *. subst.
  symex.
  repeat apply conj; try reflexivity.
  unfold db_set_merge. fold (db_get name d). rewrite Hdoc.
  rewrite merge_doc_same by reflexivity.
  unfold db_get in Hdoc. by apply insert_id.
Qed.

(** ** Properties of every run *)

Ltac every_run m E ev :=
  destruct m as [[fb oa li pg un ud ch subj loaded syl ctx gi] d o];
  destruct E as [fbk oak pdf txt chat img speech hashpw checkpw];
  cbn [ss db out firebase_initialized openai_initialized logged_in current_page
       username user_data chat_history current_study_subject
       subject_context_loaded active_syllabus active_subject_context
       generating_image env_firebase_key env_openai_key env_checkpw] in *;
  destruct ev; symex.

(** X23.  The only way into a logged-in session is a login form submitted with
    the name of a stored user and a password that bcrypt accepts against
    that user's hash; the session then holds that user's record. *)
Theorem login_is_the_only_way_in E ev m :
  logged_in (ss m) = false ->
  logged_in (ss (step E ev m)) = true ->
  exists name password r,
    ev = LoginSubmit name password /\
    db_get name (db m) = Some r /\
    env_checkpw E password (password_hash r) = true /\
    username (ss (step E ev m)) = Some name /\
    user_data (ss (step E ev m)) = Some (to_dict r).
Proof.
  intros Hout. pattern (step E ev m); apply wp_step.
  every_run m E ev.
  all: intros Hin; try discriminate Hin; try congruence.
  all: eauto 10.
Qed.

(** X24.  A plain re-run of the script, as after [st.rerun()], changes neither
    the store nor the user, transcript, balance or subject held by the
    session, and calls no API. *)
Theorem render_is_idle E m :
  let m' := step E Render m in
  db m' = db m /\
  logged_in (ss m') = logged_in (ss m) /\
  username (ss m') = username (ss m) /\
  user_data (ss m') = user_data (ss m) /\
  chat_history (ss m') = chat_history (ss m) /\
  current_study_subject (ss m') = current_study_subject (ss m) /\
  subject_context_loaded (ss m') = subject_context_loaded (ss m) /\
  List.filter is_api_call (out m') = [] /\
  List.filter is_db_write (out m') = [].
Proof.
  intros m'. subst m'. pattern (step E Render m); apply wp_step.
  destruct m as [[fb oa li pg un ud ch subj loaded syl ctx gi] d o];
    destruct E as [fbk oak pdf txt chat img speech hashpw checkpw].
  symex.
  all: repeat apply conj; reflexivity.
Qed.

Ltac other_record :=
  repeat first
    [ rewrite db_get_set_ne by congruence
    | rewrite db_get_set_merge_ne by congruence ].

(** X25.  A run never touches the stored record of anyone but the logged-in
    user: whatever the event, every other existing record is left exactly
    as it was. *)
Theorem other_users_untouched E ev m name r :
  username (ss m) <> Some name ->
  db_get name (db m) = Some r ->
  db_get name (db (step E ev m)) = Some r.
Proof.
  intros Hother Hdoc. pattern (step E ev m); apply wp_step.
  every_run m E ev.
  all: other_record; try assumption.
Qed.

Lemma is_Some_db_get_set name name' data d :
  is_Some (db_get name d) -> is_Some (db_get name (db_set name' data d)).
Proof.
  intros Hd. destruct (decide (name' = name)) as [->|Hne].
  - rewrite db_get_set. eauto.
  - by rewrite db_get_set_ne.
Qed.

Lemma is_Some_db_get_set_merge name name' data d :
  is_Some (db_get name d) -> is_Some (db_get name (db_set_merge name' data d)).
Proof.
  intros Hd. destruct (decide (name' = name)) as [->|Hne].
  - rewrite db_get_set_merge. eauto.
  - by rewrite db_get_set_merge_ne.
Qed.

(** No run deletes a user: a name that has a stored record keeps one. *)
Lemma users_never_deleted E ev m name :
  is_Some (db_get name (db m)) ->
  is_Some (db_get name (db (step E ev m))).
Proof.
  intros Hdoc. pattern (step E ev m); apply wp_step.
  every_run m E ev.
  all: repeat first [ assumption
                    | apply is_Some_db_get_set
                    | apply is_Some_db_get_set_merge ].
Qed.

(** X26.  Without Firebase the application is inert: no run writes to the store
    or logs anyone in. *)
Theorem without_firebase_nothing_is_written E ev m :
  env_firebase_key E = false ->
  let m' := step E ev m in
  db m' = db m /\
  List.filter is_db_write (out m') = [] /\
  (logged_in (ss m') = true -> logged_in (ss m) = true).
Proof.
  intros Hkey m'. subst m'. pattern (step E ev m); apply wp_step.
  every_run m E ev.
  all: repeat apply conj; try reflexivity; try (intros; congruence).
Qed.

(** X27.  Without the OpenAI key no run calls the chat, image or speech
    service. *)
Theorem without_openai_no_api_call E ev m :
  env_openai_key E = false ->
  List.filter is_api_call (out (step E ev m)) = [].
Proof.
  intros Hkey. pattern (step E ev m); apply wp_step.
  every_run m E ev.
  all: reflexivity.
Qed.

(** X28.  Whatever the event and the state, a run makes at most one
    chat-completion call. *)
Theorem at_most_one_chat_call E ev m :
  (chat_calls (out (step E ev m)) <= 1)%nat.
Proof.
  pattern (step E ev m); apply wp_step.
  every_run m E ev.
  all: cbv [chat_calls List.filter is_chat_call length]; lia.
Qed.

(** X18.  No run ever reaches the image API: the illustration branch reruns the
    script before the call to [generate_image], so the "generating" flag is
    never raised either. *)
Theorem image_api_never_called E ev m :
  let m' := step E ev m in
  List.filter is_image_call (out m') = [] /\
  generating_image (ss m') = generating_image (ss m).
Proof.
  intros m'. subst m'. pattern (step E ev m); apply wp_step.
  every_run m E ev.
  all: split; reflexivity.
Qed.

Lemma tokens_unshare old d : tokens (unshare old d) = tokens d.
Proof.
  unfold unshare. destruct (chat_history_field d) as [[|]|]; try reflexivity.
  apply tokens_with_history.
Qed.

(** X29.  The application never credits tokens: apart from a login, which loads
    another balance, a run leaves the session logged out or with a balance
    no higher than before. *)
Theorem balance_never_increases E ev m :
  is_login_submit ev = false ->
  user_data (ss (step E ev m)) = None \/
  (balance (ss (step E ev m)) <= balance (ss m))%Z.
Proof.
  intros Hev. pattern (step E ev m); apply wp_step.
  every_run m E ev.
  all: try discriminate Hev.
  all: first [ left; reflexivity | right ].
  all: arith_facts; unfold balance; cbn [user_data];
    rewrite ?tokens_unshare, ?tokens_with_tokens, ?tokens_with_subjects,
      ?tokens_with_learning_preferences;
    repeat match goal with H : tokens _ = _ |- _ => rewrite H end;
    cbn [from_option id]; try lia.
Qed.



(** ** Instances *)

Ltac by_computation :=
  vm_compute; first [reflexivity | discriminate | lia | eauto].

Lemma duplicate_registration_rejected_witness :
  run demo_env
    (RegisterSubmit "Alva" "Ames" "alice" "alva@example.org" "pw9" "pw9")
    second_visitor_registering =
    (Val tt,
     Machine (ss second_visitor_registering) (db second_visitor_registering)
       [st_error "Username already exists. Please choose a different one."]).
Proof.
  apply (duplicate_registration_rejected demo_env second_visitor_registering
           "Alva" "Ames" "alice" "alva@example.org" "pw9" "pw9" alice_record);
    by_computation.
Defined.





Lemma too_many_subjects_rejected_witness :
  run demo_env (UpdateSubjects six_subjects) alice_on_profile =
    (Val tt,
     Machine (ss alice_on_profile) (db alice_on_profile)
       [st_error "You can select a maximum of 5 subjects."]).
Proof.
  apply (too_many_subjects_rejected demo_env alice_on_profile six_subjects);
    by_computation.
Defined.

Lemma subjects_updated_witness :
  (db_get "alice"
     (db (step demo_env (UpdateSubjects ["Mathematics"; "Physics"]) alice_on_profile))
   ≫= subjects) = Some ["Mathematics"; "Physics"].
Proof.
  destruct (subjects_updated demo_env alice_on_profile ["Mathematics"; "Physics"]
              "alice")
    as (_ & Hdb & _);
    [by_computation .. |].
  exact Hdb.
Defined.

Lemma preferences_updated_witness :
  (db_get "alice"
     (db (step demo_env (UpdatePreferences "Visual" "Fast" "Advanced")
            alice_on_profile))
   ≫= learning_preferences) = Some (Prefs "Visual" "Fast" "Advanced").
Proof.
  destruct (preferences_updated demo_env alice_on_profile "Visual" "Fast" "Advanced"
              "alice")
    as (_ & Hdb & _);
    [by_computation .. |].
  exact Hdb.
Defined.

Lemma empty_send_ignored_witness :
  run demo_env (SendToTutor "") alice_studying =
    (Val tt, Machine (ss alice_studying) (db alice_studying) []).
Proof. apply (empty_send_ignored demo_env alice_studying). by_computation. Defined.

Lemma empty_image_prompt_not_refunded_witness :
  balance (ss (step env_empty_reply GenerateVisualExplanation alice_studying)) =
    950%Z.
Proof.
  destruct (empty_image_prompt_not_refunded env_empty_reply alice_studying)
    as (_ & Hb & _);
    [by_computation .. |].
  rewrite Hb. by_computation.
Defined.

Lemma send_keeps_store_in_sync_witness :
  stored_balance "alice"
    (db (step demo_env (SendToTutor "What is 2+2?") alice_studying)) = Some 999%Z.
Proof.
  destruct (send_keeps_store_in_sync demo_env alice_studying "What is 2+2?"
              "2+2 = 4" "alice")
    as (_ & Hb);
    [by_computation .. |].
  rewrite Hb. by_computation.
Defined.

Lemma session_start_persisted_witness :
  stored_history "alice" (db alice_studying) =
    Some (chat_history (ss alice_studying)).
Proof.
  destruct (session_start_persisted demo_env alice_logged_in "Mathematics"
              "High School" "Algebra. Geometry." "Use worked examples." "alice"
              alice_record)
    as (_ & Hh & _);
    [by_computation .. |].
  exact Hh.
Defined.

Lemma failed_send_keeps_user_message_witness :
  length
    (chat_history
       (ss (step env_chat_down (SendToTutor "What is 2+2?") alice_studying))) =
    3%nat.
Proof.
  destruct (failed_send_keeps_user_message env_chat_down alice_studying
              "What is 2+2?" (APIError "rate limit exceeded"))
    as (_ & Hh & _);
    [by_computation .. |].
  rewrite Hh. by_computation.
Defined.

Lemma failed_send_stores_loaded_transcript_witness :
  stored_history "alice"
    (db (step env_chat_down (SendToTutor "What is 2+2?") alice_studying)) =
    Some [].
Proof.
  destruct (failed_send_stores_loaded_transcript env_chat_down alice_studying
              "What is 2+2?" (APIError "rate limit exceeded") "alice" [])
    as (Hh & _);
    [by_computation .. |].
  exact Hh.
Defined.

Lemma last_tutor_message_is_last_witness :
  last_tutor_message
    [Msg system "prompt"; Msg assistant "Hello"; Msg user "What is 2+2?"] = "Hello".
Proof.
  apply (last_tutor_message_is_last [Msg system "prompt"] "Hello"
           [Msg user "What is 2+2?"]).
  repeat constructor. discriminate.
Defined.

Lemma load_then_update_roundtrip_witness :
  db (snd ((load_user_data "alice" ;;;
            let* user_data := the_user_data in update_user_data user_data)
             alice_logged_in)) = db alice_logged_in.
Proof.
  assert (H := load_then_update_roundtrip alice_logged_in "alice" alice_record
                 ltac:(by_computation) ltac:(by_computation)
                 ltac:(by_computation) ltac:(by_computation)).
  destruct ((load_user_data "alice" ;;;
             let* user_data := the_user_data in update_user_data user_data)
              alice_logged_in) as [res m'].
  destruct H as (_ & Hdb & _). exact Hdb.
Defined.

Lemma login_is_the_only_way_in_witness :
  exists name password r,
    LoginSubmit "alice" "pw1" = LoginSubmit name password /\
    db_get name (db alice_registered) = Some r /\
    env_checkpw demo_env password (password_hash r) = true /\
    username (ss (step demo_env (LoginSubmit "alice" "pw1") alice_registered)) =
      Some name /\
    user_data (ss (step demo_env (LoginSubmit "alice" "pw1") alice_registered)) =
      Some (to_dict r).
Proof.
  apply (login_is_the_only_way_in demo_env (LoginSubmit "alice" "pw1")
           alice_registered); by_computation.
Defined.

Lemma other_users_untouched_witness :
  db_get "bob" (db (step demo_env (SendToTutor "What is 2+2?") alice_studying)) =
    db_get "bob" (db alice_studying).
Proof.
  destruct (db_get "bob" (db alice_studying)) as [r|] eqn:Hbob;
    [|vm_compute in Hbob; discriminate Hbob].
  apply (other_users_untouched demo_env (SendToTutor "What is 2+2?")
           alice_studying "bob" r); [by_computation | exact Hbob].
Defined.

Lemma without_firebase_nothing_is_written_witness :
  db (step env_without_firebase (SendToTutor "What is 2+2?") alice_studying) =
    db alice_studying.
Proof.
  destruct (without_firebase_nothing_is_written env_without_firebase
              (SendToTutor "What is 2+2?") alice_studying)
    as (Hdb & _); [by_computation|].
  exact Hdb.
Defined.

Lemma without_openai_no_api_call_witness :
  List.filter is_api_call
    (out (step env_without_openai (SendToTutor "What is 2+2?") alice_studying)) = [].
Proof.
  apply (without_openai_no_api_call env_without_openai
           (SendToTutor "What is 2+2?") alice_studying).
  by_computation.
Defined.

Lemma balance_never_increases_witness :
  user_data (ss (step env_chat_down (SendToTutor "What is 2+2?") alice_studying)) =
    None \/
  (balance (ss (step env_chat_down (SendToTutor "What is 2+2?") alice_studying)) <=
   balance (ss alice_studying))%Z.
Proof.
  apply (balance_never_increases env_chat_down (SendToTutor "What is 2+2?")
           alice_studying).
  by_computation.
Defined.


Lemma illustration_prompt_failure_refunded_witness :
  balance (ss (step env_chat_down GenerateVisualExplanation alice_studying)) =
    balance (ss alice_studying).
Proof.
  apply (illustration_prompt_failure_refunded env_chat_down alice_studying
           (APIError "rate limit exceeded")); by_computation.
Defined.

Lemma send_refused_without_tokens_witness :
  ss (step demo_env (SendToTutor "What is 2+2?") alice_without_tokens) =
    ss alice_without_tokens.
Proof.
  destruct (send_refused_without_tokens demo_env alice_without_tokens
              "What is 2+2?") as (Hss & _); [by_computation .. |].
  exact Hss.
Defined.

Lemma visual_refused_below_cost_witness :
  ss (step demo_env GenerateVisualExplanation alice_without_tokens) =
    ss alice_without_tokens.
Proof.
  destruct (visual_refused_below_cost demo_env alice_without_tokens)
    as (Hss & _); [by_computation .. |].
  exact Hss.
Defined.
